(** * AMQPAdapter: a shallow embedding of message_queue/adapters/amqp_adapter.py

    The adapter is a thin layer over the pika client.  Every method of the
    class is embedded as a computation over the adapter object ([self]) that
    also records, in order, the calls it makes on its collaborators (the pika
    connection and channel, the logger, the user's worker).  A computation
    may end by raising a Python exception; what it did to [self] and the
    calls it made before raising remain visible, as in Python.

    What lies outside the module is given from outside: the outcome of each
    attempt to open a connection, how many nested calls the interpreter
    still allows, what arrives while the consumer blocks, and what the
    worker does with a delivery.  A call on a live pika channel
    or connection is recorded and taken to return; a call on None raises
    AttributeError.  The class Message is not part of this module: a message
    is what its [get_content()] returns. *)

From Stdlib Require Import ZArith Lia.
From stdpp Require Import base option list strings gmap.

Local Open Scope string_scope.
Local Open Scope list_scope.
Local Open Scope Z_scope.

(** ** Python values and exceptions *)

(** The values that travel through the adapter untouched (entries of a
    message's [properties] dict, of a queue's [arguments] dict). *)
Inductive pyval :=
| PNone
| PBool (b : bool)
| PInt (z : Z)
| PStr (s : string).

Inductive exn :=
| KeyboardInterrupt                (* not an Exception *)
| SystemExit                       (* not an Exception *)
| RecursionError                   (* maximum recursion depth exceeded;
                                      a RuntimeError before Python 3.5 *)
| AttributeError (attr : string)   (* object has no attribute attr *)
| Error (msg : string).            (* any other exception, with its text *)

Inductive result (A : Type) :=
| Returns (a : A)
| Raises (e : exn).
Arguments Returns {A} a.
Arguments Raises {A} e.

(** ** The pika objects the adapter holds or receives *)

Record PlainCredentials := { username : string; password : string }.

Record ConnectionParameters := {
  host : string;
  port : Z;
  virtual_host : string;
  credentials : PlainCredentials;
}.

(** Handles of the objects pika returns. *)
Inductive Connection := Conn (id : nat).
Inductive Channel := Chan (id : nat).

(** pika.BasicProperties, with the two fields the adapter sets. *)
Record BasicProperties := {
  content_type : pyval;
  delivery_mode : pyval;
}.

(** The [method] frame of a delivery (pika.spec.Basic.Deliver). *)
Record Deliver := {
  consumer_tag : string;
  delivery_tag : Z;
  redelivered : bool;
}.

(** The dict [format_message] builds, passed as keywords to [basic_publish]. *)
Record amqp_message := {
  body : string;
  routing_key : option string;
  exchange : pyval;
  properties : BasicProperties;
}.

(** [message.get_content()]: a dict with a 'properties' dict and a 'body'. *)
Record content := {
  c_properties : gmap string pyval;
  c_body : string;
}.

Record Message := { get_content : content }.

(** The keyword arguments of [configurate_queue], typed as its docstring
    types them; [None] is an absent key, so that [kwargs.get(k, d)] is
    [default d]. *)
Record kwargs := {
  kw_queue : option string;
  kw_basic_ack : option bool;
  kw_prefetch_count : option Z;
  kw_passive : option bool;
  kw_durable : option bool;
  kw_exclusive : option bool;
  kw_auto_delete : option bool;
  kw_arguments : option (gmap string pyval);
}.

Definition no_kwargs : kwargs :=
  {| kw_queue := None; kw_basic_ack := None; kw_prefetch_count := None;
     kw_passive := None; kw_durable := None; kw_exclusive := None;
     kw_auto_delete := None; kw_arguments := None |}.

(** The user's worker: called with (channel, method, properties, body), it
    returns or raises. *)
Definition worker : Type :=
  Channel -> Deliver -> BasicProperties -> string -> result unit.

(** ** Calls the adapter makes, in order *)

Inductive log_record :=
| LogConnected                                     (* debug 'Connected' *)
| LogCouldNotConnect (e : string)                  (* warning 'Could not connect to host: %r' *)
| LogQueueConfigured (q : option string) (ack : option bool) (pc : option Z)
| LogAMQPMessage (m : amqp_message).               (* debug 'AMQP Message: %r ' *)

Inductive event :=
| EvBlockingConnection (p : ConnectionParameters)  (* pika.BlockingConnection(p) *)
| EvConnectionChannel (c : Connection)             (* c.channel() *)
| EvQueueDeclare (ch : Channel) (q : option string)
    (passive durable exclusive auto_delete : bool)
    (arguments : option (gmap string pyval))
| EvBasicQos (ch : Channel) (prefetch : Z)
| EvBasicPublish (ch : Channel) (m : amqp_message)
| EvBasicConsume (ch : Channel) (q : option string) (* callback = self.consume_callback *)
| EvStartConsuming (ch : Channel)
| EvStopConsuming (ch : Channel)
| EvWorker (ch : Channel) (m : Deliver) (p : BasicProperties) (b : string)
| EvBasicAck (ch : Channel) (tag : Z)
| EvChannelClose (ch : Channel)
| EvConnectionClose (c : Connection)
| EvLog (r : log_record).

(** ** The adapter object *)

(** The attributes of an AMQPAdapter instance.  [None] stands for Python's
    None and for an attribute that is not set yet: using either as an object
    raises. *)
Record AMQPAdapter := {
  queue : option string;
  _host : string;
  _credentials : PlainCredentials;
  _parameters : ConnectionParameters;
  connection : option Connection;
  channel : option Channel;
  basic_ack : option bool;
  prefetch_count : option Z;
  _consume_worker : option worker;
}.

Definition set_queue (q : option string) (a : AMQPAdapter) : AMQPAdapter :=
  {| queue := q; _host := _host a; _credentials := _credentials a;
     _parameters := _parameters a; connection := connection a;
     channel := channel a; basic_ack := basic_ack a;
     prefetch_count := prefetch_count a;
     _consume_worker := _consume_worker a |}.

Definition set_connection (c : option Connection) (a : AMQPAdapter) : AMQPAdapter :=
  {| queue := queue a; _host := _host a; _credentials := _credentials a;
     _parameters := _parameters a; connection := c;
     channel := channel a; basic_ack := basic_ack a;
     prefetch_count := prefetch_count a;
     _consume_worker := _consume_worker a |}.

Definition set_channel (ch : option Channel) (a : AMQPAdapter) : AMQPAdapter :=
  {| queue := queue a; _host := _host a; _credentials := _credentials a;
     _parameters := _parameters a; connection := connection a;
     channel := ch; basic_ack := basic_ack a;
     prefetch_count := prefetch_count a;
     _consume_worker := _consume_worker a |}.

Definition set_basic_ack (b : option bool) (a : AMQPAdapter) : AMQPAdapter :=
  {| queue := queue a; _host := _host a; _credentials := _credentials a;
     _parameters := _parameters a; connection := connection a;
     channel := channel a; basic_ack := b;
     prefetch_count := prefetch_count a;
     _consume_worker := _consume_worker a |}.

Definition set_prefetch_count (pc : option Z) (a : AMQPAdapter) : AMQPAdapter :=
  {| queue := queue a; _host := _host a; _credentials := _credentials a;
     _parameters := _parameters a; connection := connection a;
     channel := channel a; basic_ack := basic_ack a;
     prefetch_count := pc;
     _consume_worker := _consume_worker a |}.

Definition set_consume_worker (w : option worker) (a : AMQPAdapter) : AMQPAdapter :=
  {| queue := queue a; _host := _host a; _credentials := _credentials a;
     _parameters := _parameters a; connection := connection a;
     channel := channel a; basic_ack := basic_ack a;
     prefetch_count := prefetch_count a;
     _consume_worker := w |}.

(** ** Method bodies as computations over [self] *)

Definition M (A : Type) : Type :=
  AMQPAdapter -> list event * AMQPAdapter * result A.

Definition ret {A} (a : A) : M A := fun self => ([], self, Returns a).

Definition raise {A} (e : exn) : M A := fun self => ([], self, Raises e).

Definition bind {A B} (m : M A) (k : A -> M B) : M B := fun self =>
  match m self with
  | (t, self', Returns a) =>
      match k a self' with
      | (t', self'', r) => (t ++ t', self'', r)
      end
  | (t, self', Raises e) => (t, self', Raises e)
  end.

(** [try: m except e: h e] *)
Definition try_except {A} (m : M A) (h : exn -> M A) : M A := fun self =>
  match m self with
  | (t, self', Returns a) => (t, self', Returns a)
  | (t, self', Raises e) =>
      match h e self' with
      | (t', self'', r) => (t ++ t', self'', r)
      end
  end.

Definition call (ev : event) : M unit := fun self => ([ev], self, Returns tt).

Definition attr {A} (f : AMQPAdapter -> A) : M A := fun self => ([], self, Returns (f self)).

Definition assign (f : AMQPAdapter -> AMQPAdapter) : M unit :=
  fun self => ([], f self, Returns tt).

Declare Scope py_scope.
Delimit Scope py_scope with py.
Notation "x <- m ;; k" := (bind m (fun x => k))
  (at level 100, m at next level, right associativity) : py_scope.
Notation "m ;; k" := (bind m (fun _ => k))
  (at level 100, right associativity) : py_scope.
Local Open Scope py_scope.

(** [self.channel.<name>]: the channel if there is one, else the
    AttributeError Python raises on None. *)
Definition self_channel (name : string) : M Channel := fun self =>
  match channel self with
  | Some ch => ([], self, Returns ch)
  | None => ([], self, Raises (AttributeError name))
  end.

Definition self_connection (name : string) : M Connection := fun self =>
  match connection self with
  | Some c => ([], self, Returns c)
  | None => ([], self, Raises (AttributeError name))
  end.

(** Python's [not self.queue]: None and the empty string are both false. *)
Definition not_ (q : option string) : bool :=
  match q with
  | None => true
  | Some s => bool_decide (s = "")
  end.

Definition self_prefetch_count : M Z := fun self =>
  match prefetch_count self with
  | Some pc => ([], self, Returns pc)
  | None => ([], self, Raises (AttributeError "prefetch_count"))
  end.

(** What a called collaborator hands back: its result, or its exception. *)
Definition returned {A} (r : result A) : M A := fun self => ([], self, r).

(** [except Exception] catches everything but the interrupt. *)
Definition is_Exception (e : exn) : bool :=
  match e with
  | KeyboardInterrupt | SystemExit => false
  | RecursionError | AttributeError _ | Error _ => true
  end.

Definition run (A : Type) : Type := (list event * AMQPAdapter * result A)%type.

(** ** The broker side *)

(** One attempt to open a connection and a channel on it:
    [pika.BlockingConnection(parameters)] raises, or it gives a connection
    and [connection.channel()] raises, or both succeed.  What is raised is a
    failure of pika ([Error], with its text) or whatever else hits the call
    while it runs, an interrupt included. *)
Inductive attempt :=
| ConnectionFails (e : exn)
| ChannelFails (c : Connection) (e : exn)
| Opened (c : Connection) (ch : Channel).

(** The network as the adapter meets it: the outcome of the k-th attempt. *)
Definition network : Type := nat -> attempt.

(** What reaches a consumer while [start_consuming] blocks. *)
Inductive arrival :=
| Delivery (method : Deliver) (props : BasicProperties) (payload : string)
| Interrupt.

(** ** AMQPAdapter methods *)

Definition configurate_queue (kw : kwargs) : M unit :=
  q <- attr queue ;;
  if not_ q then
    assign (set_queue (Some (default "" (kw_queue kw)))) ;;
    assign (set_basic_ack (Some (default true (kw_basic_ack kw)))) ;;
    assign (set_prefetch_count (Some (default 0 (kw_prefetch_count kw)))) ;;
    ch <- self_channel "queue_declare" ;;
    q <- attr queue ;;
    call (EvQueueDeclare ch q
            (default false (kw_passive kw))
            (default true (kw_durable kw))
            (default false (kw_exclusive kw))
            (default false (kw_auto_delete kw))
            (kw_arguments kw)) ;;
    pc <- self_prefetch_count ;;
    (if 0 <? pc then
       ch <- self_channel "basic_qos" ;;
       pc <- self_prefetch_count ;;
       call (EvBasicQos ch pc)
     else ret tt) ;;
    q <- attr queue ;;
    ack <- attr basic_ack ;;
    pc <- attr prefetch_count ;;
    call (EvLog (LogQueueConfigured q ack pc))
  else ret tt.

(** The [try] block of [connect], at the k-th attempt. *)
Definition connect_try (net : network) (k : nat) : M unit :=
  p <- attr _parameters ;;
  call (EvBlockingConnection p) ;;
  match net k with
  | ConnectionFails e => raise e
  | ChannelFails c e =>
      assign (set_connection (Some c)) ;;
      call (EvConnectionChannel c) ;;
      raise e
  | Opened c ch =>
      assign (set_connection (Some c)) ;;
      call (EvConnectionChannel c) ;;
      assign (set_channel (Some ch)) ;;
      call (EvLog LogConnected)
  end.

Definition exn_text (e : exn) : string :=
  match e with
  | KeyboardInterrupt => "KeyboardInterrupt"
  | SystemExit => "SystemExit"
  | RecursionError => "maximum recursion depth exceeded"
  | AttributeError a => a
  | Error msg => msg
  end.

(** [connect] calls itself from its [except] clause, one call inside the
    other.  [depth] is the number of nested calls of [connect] the
    interpreter still allows (its recursion limit, less the frames in use):
    the call beyond it raises RecursionError, and raises it at the call, in
    the caller's [except] clause, so that no [try] of [connect] catches it. *)
Fixpoint connect (net : network) (k : nat) (depth : nat) (self : AMQPAdapter)
  : run unit :=
  match depth with
  | O => ([], self, Raises RecursionError)
  | S depth' =>
      match connect_try net k self with
      | (t, self', Returns _) => (t, self', Returns tt)
      | (t, self', Raises e) =>
          if is_Exception e then
            match connect net (S k) depth' self' with
            | (t', self'', r) =>
                (t ++ EvLog (LogCouldNotConnect (exn_text e)) :: t', self'', r)
            end
          else (t, self', Raises e)
      end
  end.

Definition __init__ (net : network) (depth : nat)
  (host : string) (port : Z) (user password vhost : string)
  : run unit :=
  let creds := {| username := user; password := password |} in
  let self :=
    {| queue := None;
       _host := host;
       _credentials := creds;
       _parameters := {| host := host; port := port; virtual_host := vhost;
                         credentials := creds |};
       connection := None; channel := None;
       basic_ack := None; prefetch_count := None;
       _consume_worker := None |} in
  connect net 0 depth self.

Definition close : M unit :=
  ch <- self_channel "close" ;;
  call (EvChannelClose ch) ;;
  c <- self_connection "close" ;;
  call (EvConnectionClose c) ;;
  assign (fun self => set_channel None (set_connection None (set_queue None self))).

Definition format_message (message : content) : M amqp_message :=
  let exchange := default (PStr "") (c_properties message !! "exchange") in
  let delivery_mode := default (PInt 2) (c_properties message !! "delivery_mode") in
  q <- attr queue ;;
  let _message :=
    {| body := c_body message;
       routing_key := q;
       exchange := exchange;
       properties := {| content_type := PStr "application/json";
                        delivery_mode := delivery_mode |} |} in
  call (EvLog (LogAMQPMessage _message)) ;;
  ret _message.

Definition send (message : Message) : M unit :=
  amqp_message <- format_message (get_content message) ;;
  ch <- self_channel "basic_publish" ;;
  call (EvBasicPublish ch amqp_message).

Definition consume_acknowledge (channel : Channel) (tag : Z) : M unit :=
  call (EvBasicAck channel tag).

Definition consume_callback (channel : Channel) (method : Deliver)
  (properties : BasicProperties) (body : string) : M unit :=
  w <- attr _consume_worker ;;
  match w with
  | None => raise (AttributeError "_consume_worker")
  | Some w =>
      call (EvWorker channel method properties body) ;;
      returned (w channel method properties body) ;;
      consume_acknowledge channel (delivery_tag method)
  end.

(** pika's blocking loop on [channel]: every delivery goes to the callback
    registered by [basic_consume], which is [self.consume_callback]; an
    exception of the callback leaves the loop, an interrupt raises
    KeyboardInterrupt in it, and it returns when nothing more arrives. *)
Fixpoint start_consuming (channel : Channel) (arrivals : list arrival) : M unit :=
  match arrivals with
  | [] => ret tt
  | Interrupt :: _ => raise KeyboardInterrupt
  | Delivery method props payload :: rest =>
      consume_callback channel method props payload ;;
      start_consuming channel rest
  end.

Definition consume (worker : worker) (arrivals : list arrival) : M unit :=
  assign (set_consume_worker (Some worker)) ;;
  ch <- self_channel "basic_consume" ;;
  q <- attr queue ;;
  call (EvBasicConsume ch q) ;;
  try_except
    (ch <- self_channel "start_consuming" ;;
     call (EvStartConsuming ch) ;;
     start_consuming ch arrivals)
    (fun e =>
       match e with
       | KeyboardInterrupt =>
           ch <- self_channel "stop_consuming" ;;
           call (EvStopConsuming ch) ;;
           close
       | _ => raise e
       end).

(** ** Reading a trace *)

(** The acknowledgements in a trace, in order. *)
Definition acked (t : list event) : list (Channel * Z) :=
  flat_map (fun ev => match ev with
                      | EvBasicAck ch tag => [(ch, tag)]
                      | _ => []
                      end) t.

(** The QoS limits set in a trace, in order. *)
Definition qos_limits (t : list event) : list (Channel * Z) :=
  flat_map (fun ev => match ev with
                      | EvBasicQos ch n => [(ch, n)]
                      | _ => []
                      end) t.

Definition is_attempt (ev : event) : bool :=
  match ev with EvBlockingConnection _ => true | _ => false end.

Definition is_warning (ev : event) : bool :=
  match ev with EvLog (LogCouldNotConnect _) => true | _ => false end.

Definition count (f : event -> bool) (t : list event) : nat :=
  length (List.filter f t).

Definition opens (a : attempt) : bool :=
  match a with Opened _ _ => true | _ => false end.

(** A run of several [configurate_queue] calls, one after the other. *)
Fixpoint configurate_queue_calls (kws : list kwargs) : M unit :=
  match kws with
  | [] => ret tt
  | kw :: kws' => configurate_queue kw ;; configurate_queue_calls kws'
  end.

(** The adapter a run ends with. *)
Definition final {A} (r : run A) : AMQPAdapter := snd (fst r).
Definition trace {A} (r : run A) : list event := fst (fst r).
Definition outcome {A} (r : run A) : result A := snd r.

(** ** Sample objects *)

Definition guest : PlainCredentials := {| username := "guest"; password := "guest" |}.

Definition localhost : ConnectionParameters :=
  {| host := "localhost"; port := 5672; virtual_host := "/"; credentials := guest |}.

(** An adapter as [__init__] leaves it once connected. *)
Definition connected : AMQPAdapter :=
  {| queue := None; _host := "localhost"; _credentials := guest;
     _parameters := localhost;
     connection := Some (Conn 1); channel := Some (Chan 1);
     basic_ack := None; prefetch_count := None; _consume_worker := None |}.

Definition tag7 : Deliver :=
  {| consumer_tag := "ctag1"; delivery_tag := 7; redelivered := false |}.

Definition json_props : BasicProperties :=
  {| content_type := PStr "application/json"; delivery_mode := PInt 2 |}.

Definition print_worker : worker := fun _ _ _ _ => Returns tt.

Definition failing_worker : worker := fun _ _ _ _ => Raises (Error "ValueError").

Definition plain_message : Message :=
  {| get_content := {| c_properties := ∅; c_body := "{}" |} |}.

Definition routed_message : Message :=
  {| get_content :=
       {| c_properties := <["exchange" := PStr "ex1"]> (<["delivery_mode" := PInt 1]> ∅);
          c_body := "{}" |} |}.

Definition with_queue (q : string) : AMQPAdapter := set_queue (Some q) connected.

Definition prefetch5 : kwargs :=
  {| kw_queue := Some "jobs"; kw_basic_ack := None; kw_prefetch_count := Some 5;
     kw_passive := None; kw_durable := None; kw_exclusive := None;
     kw_auto_delete := None; kw_arguments := None |}.

(** A delivery as pika hands it to the callback: method, properties, body. *)
Definition delivery : Type := (Deliver * BasicProperties * string)%type.

Definition arrive (d : delivery) : arrival :=
  match d with (method, props, payload) => Delivery method props payload end.

Definition tag_of (d : delivery) : Z := delivery_tag (fst (fst d)).

(** The worker returns normally on a delivery. *)
Definition returns_on (w : worker) (ch : Channel) (d : delivery) : Prop :=
  match d with (method, props, payload) => w ch method props payload = Returns tt end.

(** The calls a delivery costs when the worker returns: the worker, then the
    acknowledgement. *)
Definition handled (ch : Channel) (d : delivery) : list event :=
  match d with
  | (method, props, payload) =>
      [EvWorker ch method props payload; EvBasicAck ch (delivery_tag method)]
  end.

Definition a_delivery : delivery := (tag7, json_props, "[1]").

Definition consuming (w : worker) : AMQPAdapter :=
  set_consume_worker (Some w) (with_queue "jobs").

(** A network that refuses once, then fails to open a channel, then works. *)
Definition flaky : network := fun k =>
  match k with
  | O => ConnectionFails (Error "refused")
  | S O => ChannelFails (Conn 1) (Error "channel closed")
  | _ => Opened (Conn 2) (Chan 2)
  end.

(** ** Adapters that differ in basic_ack only *)

Definition same_but_basic_ack (a1 a2 : AMQPAdapter) : Prop :=
  set_basic_ack None a1 = set_basic_ack None a2.

(** Two runs agree: the same calls in the same order, the same result or
    exception, and final adapters that again differ in basic_ack only. *)
Definition agree {A} (r1 r2 : run A) : Prop :=
  trace r1 = trace r2 /\
  outcome r1 = outcome r2 /\
  same_but_basic_ack (final r1) (final r2).

(** A computation that neither reads nor writes basic_ack: changing the
    attribute beforehand changes nothing but the attribute afterwards. *)
Definition blind {A} (m : M A) : Prop :=
  forall (b : option bool) (self : AMQPAdapter),
    m (set_basic_ack b self) =
      (trace (m self), set_basic_ack b (final (m self)), outcome (m self)).

Definition kw_set_basic_ack (b : option bool) (kw : kwargs) : kwargs :=
  {| kw_queue := kw_queue kw; kw_basic_ack := b;
     kw_prefetch_count := kw_prefetch_count kw; kw_passive := kw_passive kw;
     kw_durable := kw_durable kw; kw_exclusive := kw_exclusive kw;
     kw_auto_delete := kw_auto_delete kw; kw_arguments := kw_arguments kw |}.

(** ** Reading a trace, continued *)

(** The texts of the connection warnings in a trace, in order. *)
Definition warnings (t : list event) : list string :=
  flat_map (fun ev => match ev with
                      | EvLog (LogCouldNotConnect e) => [e]
                      | _ => []
                      end) t.

(** The parameters of the connection attempts in a trace, in order. *)
Definition attempted (t : list event) : list ConnectionParameters :=
  flat_map (fun ev => match ev with
                      | EvBlockingConnection p => [p]
                      | _ => []
                      end) t.

(** The connections opened, and the connections closed, in a trace. *)
Definition opened_channels_on (t : list event) : list Connection :=
  flat_map (fun ev => match ev with
                      | EvConnectionChannel c => [c]
                      | _ => []
                      end) t.

Definition closed_connections (t : list event) : list Connection :=
  flat_map (fun ev => match ev with
                      | EvConnectionClose c => [c]
                      | _ => []
                      end) t.

(** The deliveries handed to the worker in a trace, by channel and tag. *)
Definition worker_calls (t : list event) : list (Channel * Z) :=
  flat_map (fun ev => match ev with
                      | EvWorker ch m _ _ => [(ch, delivery_tag m)]
                      | _ => []
                      end) t.

(** The queues declared in a trace, by name. *)
Definition declared (t : list event) : list (option string) :=
  flat_map (fun ev => match ev with
                      | EvQueueDeclare _ q _ _ _ _ _ => [q]
                      | _ => []
                      end) t.


(** What arrives on [ch], deliveries only, by channel and tag. *)
Definition delivered (ch : Channel) (arrivals : list arrival) : list (Channel * Z) :=
  flat_map (fun a => match a with
                     | Delivery m _ _ => [(ch, delivery_tag m)]
                     | Interrupt => []
                     end) arrivals.

(** The text of a failed attempt. *)
Definition failure_text (a : attempt) : list string :=
  match a with
  | ConnectionFails e => [exn_text e]
  | ChannelFails _ e => [exn_text e]
  | Opened _ _ => []
  end.

(** The texts of the failures among the [m] attempts from the k-th on. *)
Fixpoint failures (net : network) (k m : nat) : list string :=
  match m with
  | O => []
  | S m' => failure_text (net k) ++ failures net (S k) m'
  end.

(** The connections that attempts k .. k+m-1 opened before their channel
    failed. *)
Fixpoint half_opened (net : network) (k m : nat) : list Connection :=
  match m with
  | O => []
  | S m' =>
      match net k with
      | ChannelFails c _ => c :: half_opened net (S k) m'
      | _ => half_opened net (S k) m'
      end
  end.

(** ** The adapter in use *)

(** A call of a public method, as a user of the adapter makes it. *)
Inductive operation :=
| DoConfigurateQueue (kw : kwargs)
| DoSend (message : Message)
| DoConsume (w : worker) (arrivals : list arrival)
| DoConsumeCallback (ch : Channel) (m : Deliver) (p : BasicProperties) (b : string)
| DoClose.

Definition perform (o : operation) : M unit :=
  match o with
  | DoConfigurateQueue kw => configurate_queue kw
  | DoSend message => send message
  | DoConsume w arrivals => consume w arrivals
  | DoConsumeCallback ch m p b => consume_callback ch m p b
  | DoClose => close
  end.

(** One use of the adapter: a method call or a [connect], which returns or
    raises and leaves the object as it then is. *)
Inductive step : AMQPAdapter -> AMQPAdapter -> Prop :=
| step_perform (self : AMQPAdapter) (o : operation) :
    step self (final (perform o self))
| step_connect (self : AMQPAdapter) (net : network) (k depth : nat) :
    step self (final (connect net k depth self)).



(** [self.queue = self.connection = self.channel = None] *)
Definition cleared (a : AMQPAdapter) : AMQPAdapter :=
  set_channel None (set_connection None (set_queue None a)).

(** A network that refuses 996 times and would open at the next attempt. *)
Definition late : network := fun k =>
  if (k <? 996)%nat then ConnectionFails (Error "refused")
  else Opened (Conn 1) (Chan 1).

(** A network on which the second attempt is interrupted from the keyboard
    while the channel is being opened. *)
Definition interrupted : network := fun k =>
  match k with
  | O => ConnectionFails (Error "refused")
  | S O => ChannelFails (Conn 1) KeyboardInterrupt
  | _ => Opened (Conn 2) (Chan 2)
  end.

(** What an attempt raises, if it raises. *)
Definition raised (a : attempt) : option exn :=
  match a with
  | ConnectionFails e => Some e
  | ChannelFails _ e => Some e
  | Opened _ _ => None
  end.

(** An attempt fails with an ordinary error: anything but the two
    exceptions that Python keeps outside the class Exception. *)
Definition caught (a : attempt) : bool :=
  match raised a with
  | Some KeyboardInterrupt | Some SystemExit | None => false
  | Some _ => true
  end.

(** An attempt is hit by KeyboardInterrupt or SystemExit. *)
Definition escapes (a : attempt) : option exn :=
  match raised a with
  | Some KeyboardInterrupt => Some KeyboardInterrupt
  | Some SystemExit => Some SystemExit
  | _ => None
  end.

(** What the loop over [arrivals] costs with worker [w]: for each delivery
    in turn the worker call and, when the worker returned, the
    acknowledgement of its tag; nothing after the first interrupt or the
    first delivery on which the worker raises. *)
Fixpoint served (w : worker) (ch : Channel) (arrivals : list arrival) : list event :=
  match arrivals with
  | [] => []
  | Interrupt :: _ => []
  | Delivery m p b :: rest =>
      match w ch m p b with
      | Returns _ =>
          EvWorker ch m p b :: EvBasicAck ch (delivery_tag m) :: served w ch rest
      | Raises _ => [EvWorker ch m p b]
      end
  end.

Definition other_worker : worker := fun _ m _ _ =>
  if delivery_tag m =? 7 then Raises KeyboardInterrupt else Returns tt.

Definition tag8 : Deliver :=
  {| consumer_tag := "ctag1"; delivery_tag := 8; redelivered := false |}.

(** What [m] caught attempts from the k-th on leave in a trace: their
    warnings, their calls, and nothing closed or declared. *)
Definition retried (net : network) (k m : nat) (p : ConnectionParameters)
  (t : list event) : Prop :=
  warnings t = failures net k m /\
  attempted t = replicate m p /\
  opened_channels_on t = half_opened net k m /\
  closed_connections t = [] /\
  declared t = [] /\
  count is_attempt t = m /\
  count is_warning t = m.

(** ** close *)

(** C6: on an adapter that holds a channel and a connection, [close] closes
    the channel, then the connection, returns, and leaves [queue],
    [connection] and [channel] at None with every other attribute as it
    was. *)
Theorem close_connected (self : AMQPAdapter) (ch : Channel) (c : Connection) :
  channel self = Some ch ->
  connection self = Some c ->
  close self =
    ([EvChannelClose ch; EvConnectionClose c],
     {| queue := None; connection := None; channel := None;
        _host := _host self; _credentials := _credentials self;
        _parameters := _parameters self; basic_ack := basic_ack self;
        prefetch_count := prefetch_count self;
        _consume_worker := _consume_worker self |},
     Returns tt).
Proof.
  intros Hch Hc. unfold close, bind, self_channel, self_connection, call, assign.
  rewrite Hch, Hc. reflexivity.
Qed.

Lemma close_connected_witness :
  close connected =
    ([EvChannelClose (Chan 1); EvConnectionClose (Conn 1)],
     {| queue := None; connection := None; channel := None;
        _host := "localhost"; _credentials := guest;
        _parameters := localhost; basic_ack := None;
        prefetch_count := None; _consume_worker := None |},
     Returns tt).
Proof. apply (close_connected connected (Chan 1) (Conn 1)); reflexivity. Defined.

Lemma close_no_channel (self : AMQPAdapter) :
  channel self = None ->
  close self = ([], self, Raises (AttributeError "close")).
Proof.
  intros Hch. unfold close, bind, self_channel. rewrite Hch. reflexivity.
Qed.

(** C10: [close] needs a channel.  On an adapter whose channel is None it
    raises AttributeError, calls nothing and changes nothing; so a second
    [close], run on the adapter a first [close] left, raises instead of
    doing nothing. *)
Theorem close_twice_raises (self : AMQPAdapter) (ch : Channel) (c : Connection) :
  channel self = Some ch ->
  connection self = Some c ->
  outcome (close self) = Returns tt /\
  channel (final (close self)) = None /\
  connection (final (close self)) = None /\
  close (final (close self)) =
    ([], final (close self), Raises (AttributeError "close")).
Proof.
  intros Hch Hc.
  assert (Hrun : close self =
            ([EvChannelClose ch; EvConnectionClose c],
             set_channel None (set_connection None (set_queue None self)),
             Returns tt)).
  { unfold close, bind, self_channel, self_connection, call, assign.
    rewrite Hch, Hc. reflexivity. }
  rewrite Hrun. unfold outcome, final; simpl.
  split; [reflexivity|]. split; [reflexivity|]. split; [reflexivity|].
  apply close_no_channel. reflexivity.
Qed.

Lemma close_twice_raises_witness :
  outcome (close connected) = Returns tt /\
  channel (final (close connected)) = None /\
  connection (final (close connected)) = None /\
  close (final (close connected)) =
    ([], final (close connected), Raises (AttributeError "close")).
Proof. apply (close_twice_raises connected (Chan 1) (Conn 1)); reflexivity. Defined.

(** ** send *)

(** C3: on an adapter with a channel and a queue name [q], [send message]
    logs and publishes one message: routing key [q], exchange
    [properties['exchange']] or the empty string, delivery mode
    [properties['delivery_mode']] or 2, content type 'application/json', the
    body as it came; the adapter is unchanged. *)
Theorem send_publishes (self : AMQPAdapter) (ch : Channel) (q : string) (message : Message) :
  channel self = Some ch ->
  queue self = Some q ->
  send message self =
    (let m :=
       {| body := c_body (get_content message);
          routing_key := Some q;
          exchange :=
            match c_properties (get_content message) !! "exchange" with
            | Some v => v
            | None => PStr ""
            end;
          properties :=
            {| content_type := PStr "application/json";
               delivery_mode :=
                 match c_properties (get_content message) !! "delivery_mode" with
                 | Some v => v
                 | None => PInt 2
                 end |} |} in
     [EvLog (LogAMQPMessage m); EvBasicPublish ch m],
     self, Returns tt).
Proof.
  intros Hch Hq.
  unfold send, format_message, bind, attr, call, ret, self_channel.
  rewrite Hq, Hch. reflexivity.
Qed.

Lemma send_publishes_witness :
  send routed_message (with_queue "jobs") =
    (let m :=
       {| body := "{}"; routing_key := Some "jobs"; exchange := PStr "ex1";
          properties := {| content_type := PStr "application/json";
                           delivery_mode := PInt 1 |} |} in
     [EvLog (LogAMQPMessage m); EvBasicPublish (Chan 1) m],
     with_queue "jobs", Returns tt).
Proof.
  apply (send_publishes (with_queue "jobs") (Chan 1) "jobs" routed_message);
    reflexivity.
Defined.

(** The two publish scenarios of the specification. *)
Example send_plain_message :
  trace (send plain_message (with_queue "jobs")) =
    let m := {| body := "{}"; routing_key := Some "jobs"; exchange := PStr "";
                properties := {| content_type := PStr "application/json";
                                 delivery_mode := PInt 2 |} |} in
    [EvLog (LogAMQPMessage m); EvBasicPublish (Chan 1) m].
Proof. vm_compute. reflexivity. Qed.

Example send_routed_message :
  trace (send routed_message (with_queue "jobs")) =
    let m := {| body := "{}"; routing_key := Some "jobs"; exchange := PStr "ex1";
                properties := {| content_type := PStr "application/json";
                                 delivery_mode := PInt 1 |} |} in
    [EvLog (LogAMQPMessage m); EvBasicPublish (Chan 1) m].
Proof. vm_compute. reflexivity. Qed.

(** ** configurate_queue *)

(** C4: on an adapter with a channel and no queue name yet,
    [configurate_queue] declares the queue once, with the options given and
    the defaults queue '', passive False, durable True, exclusive False,
    auto_delete False, arguments None; it stores queue, basic_ack (default
    True) and prefetch_count (default 0); and it sets a QoS limit, equal to
    prefetch_count, exactly when prefetch_count > 0. *)
Theorem configurate_queue_declares (self : AMQPAdapter) (ch : Channel) (kw : kwargs) :
  channel self = Some ch ->
  not_ (queue self) = true ->
  let q := match kw_queue kw with Some s => s | None => "" end in
  let ack := match kw_basic_ack kw with Some b => b | None => true end in
  let pc := match kw_prefetch_count kw with Some n => n | None => 0 end in
  let declare :=
    EvQueueDeclare ch (Some q)
      (match kw_passive kw with Some b => b | None => false end)
      (match kw_durable kw with Some b => b | None => true end)
      (match kw_exclusive kw with Some b => b | None => false end)
      (match kw_auto_delete kw with Some b => b | None => false end)
      (kw_arguments kw) in
  let qos := if 0 <? pc then [EvBasicQos ch pc] else [] in
  configurate_queue kw self =
    (declare :: qos ++ [EvLog (LogQueueConfigured (Some q) (Some ack) (Some pc))],
     set_prefetch_count (Some pc) (set_basic_ack (Some ack) (set_queue (Some q) self)),
     Returns tt) /\
  qos_limits (trace (configurate_queue kw self)) =
    (if 0 <? pc then [(ch, pc)] else []) /\
  ((exists n, (ch, n) ∈ qos_limits (trace (configurate_queue kw self))) <-> 0 < pc).
Proof.
  intros Hch Hq q ack pc declare qos.
  assert (Hrun : configurate_queue kw self =
    (declare :: qos ++ [EvLog (LogQueueConfigured (Some q) (Some ack) (Some pc))],
     set_prefetch_count (Some pc) (set_basic_ack (Some ack) (set_queue (Some q) self)),
     Returns tt)).
  { subst declare qos q ack pc. destruct self as [q0 h cr pa co ch0 ba pf cw].
    simpl in Hch, Hq. subst ch0.
    unfold configurate_queue, bind, attr, assign, call, ret, self_channel,
      self_prefetch_count, default; simpl. rewrite Hq.
    destruct (kw_queue kw), (kw_basic_ack kw), (kw_prefetch_count kw) as [n|];
      cbn -[Z.ltb]; try (destruct (0 <? n)); reflexivity. }
  split; [exact Hrun|]. rewrite Hrun. unfold trace; cbn -[Z.ltb].
  assert (Hlim : qos_limits (qos ++ [EvLog (LogQueueConfigured (Some q) (Some ack) (Some pc))])
                 = if 0 <? pc then [(ch, pc)] else []).
  { subst qos. destruct (0 <? pc); reflexivity. }
  unfold qos_limits in *. cbn -[Z.ltb flat_map]. rewrite Hlim. split; [reflexivity|].
  destruct (Z.ltb_spec 0 pc) as [Hpos|Hnpos].
  - split; [intros _; exact Hpos|]. intros _. exists pc. apply list_elem_of_singleton. reflexivity.
  - split.
    + intros [n Hn]. inversion Hn.
    + lia.
Qed.

Lemma configurate_queue_declares_witness :
  qos_limits (trace (configurate_queue prefetch5 connected)) = [(Chan 1, 5)].
Proof.
  pose proof (configurate_queue_declares connected (Chan 1) prefetch5
                eq_refl eq_refl) as H.
  cbv zeta in H. destruct H as [_ [H _]]. exact H.
Defined.

(** The two QoS scenarios: the default prefetch_count sets no limit, and
    prefetch_count=5 sets the limit 5 right after the declaration. *)
Example configurate_queue_defaults :
  configurate_queue no_kwargs connected =
    ([EvQueueDeclare (Chan 1) (Some "") false true false false None;
      EvLog (LogQueueConfigured (Some "") (Some true) (Some 0))],
     set_prefetch_count (Some 0) (set_basic_ack (Some true) (set_queue (Some "") connected)),
     Returns tt).
Proof. reflexivity. Qed.

Example configurate_queue_prefetch5 :
  trace (configurate_queue prefetch5 connected) =
    [EvQueueDeclare (Chan 1) (Some "jobs") false true false false None;
     EvBasicQos (Chan 1) 5;
     EvLog (LogQueueConfigured (Some "jobs") (Some true) (Some 5))].
Proof. reflexivity. Qed.

Lemma configurate_queue_noop (self : AMQPAdapter) (kw : kwargs) :
  not_ (queue self) = false ->
  configurate_queue kw self = ([], self, Returns tt).
Proof.
  intros Hq. unfold configurate_queue, bind, attr. rewrite Hq. reflexivity.
Qed.

Lemma configurate_queue_calls_noop (self : AMQPAdapter) (kws : list kwargs) :
  not_ (queue self) = false ->
  configurate_queue_calls kws self = ([], self, Returns tt).
Proof.
  intros Hq. induction kws as [|kw kws IH]; [reflexivity|].
  simpl. unfold bind. rewrite (configurate_queue_noop self kw Hq), IH. reflexivity.
Qed.

Lemma configurate_queue_sets_queue (self : AMQPAdapter) (kw : kwargs) :
  not_ (queue self) = true ->
  queue (final (configurate_queue kw self)) =
    Some (match kw_queue kw with Some s => s | None => "" end).
Proof.
  intros Hq. destruct self as [q0 h cr pa co ch0 ba pf cw]. simpl in Hq.
  unfold configurate_queue, bind, attr, assign, call, ret, self_channel,
    self_prefetch_count, default, final; simpl. rewrite Hq.
  destruct ch0 as [ch|]; [|destruct (kw_queue kw); reflexivity].
  destruct (kw_queue kw), (kw_basic_ack kw), (kw_prefetch_count kw) as [n|];
    cbn -[Z.ltb]; try (destruct (0 <? n)); reflexivity.
Qed.

(** C2, as the code has it: when the first [configurate_queue] call names a
    queue (a non-empty name), every later call, with any arguments, calls
    nothing and leaves the adapter (queue, basic_ack, prefetch_count and all
    the rest) as the first call left it. *)
Theorem configurate_queue_first_call_wins
  (self : AMQPAdapter) (first : kwargs) (name : string) (later : list kwargs) :
  not_ (queue self) = true ->
  kw_queue first = Some name ->
  name <> "" ->
  let configured := final (configurate_queue first self) in
  queue configured = Some name /\
  configurate_queue_calls later configured = ([], configured, Returns tt).
Proof.
  intros Hq Hname Hne configured.
  assert (Hset : queue configured = Some name).
  { subst configured. rewrite (configurate_queue_sets_queue self first Hq), Hname.
    reflexivity. }
  split; [exact Hset|].
  apply configurate_queue_calls_noop. rewrite Hset. simpl.
  apply bool_decide_eq_false. exact Hne.
Qed.

Lemma configurate_queue_first_call_wins_witness :
  configurate_queue_calls [no_kwargs; prefetch5]
    (final (configurate_queue prefetch5 connected)) =
  ([], final (configurate_queue prefetch5 connected), Returns tt).
Proof.
  pose proof (configurate_queue_first_call_wins connected prefetch5 "jobs"
                [no_kwargs; prefetch5] eq_refl eq_refl) as H.
  cbv zeta in H. apply H. discriminate.
Defined.

(** C2 as stated fails when the first call leaves the queue name at its
    default: the name stored is the empty string, which the guard
    [not self.queue] takes for no queue, and a second call declares a queue
    again and replaces queue and prefetch_count. *)
Lemma configurate_queue_default_then_named :
  let first := final (configurate_queue no_kwargs connected) in
  queue first = Some "" /\
  prefetch_count first = Some 0 /\
  configurate_queue prefetch5 first =
    ([EvQueueDeclare (Chan 1) (Some "jobs") false true false false None;
      EvBasicQos (Chan 1) 5;
      EvLog (LogQueueConfigured (Some "jobs") (Some true) (Some 5))],
     set_prefetch_count (Some 5) (set_queue (Some "jobs") first),
     Returns tt) /\
  final (configurate_queue prefetch5 first) <> first.
Proof.
  cbv zeta. repeat split. discriminate.
Qed.

(** ** consume_callback *)

Lemma consume_callback_run (self : AMQPAdapter) (w : worker) (ch : Channel)
  (m : Deliver) (p : BasicProperties) (b : string) :
  _consume_worker self = Some w ->
  consume_callback ch m p b self =
    match w ch m p b with
    | Returns _ => ([EvWorker ch m p b; EvBasicAck ch (delivery_tag m)], self, Returns tt)
    | Raises e => ([EvWorker ch m p b], self, Raises e)
    end.
Proof.
  intros Hw. unfold consume_callback, bind, attr, call, returned, consume_acknowledge.
  rewrite Hw. destruct (w ch m p b); reflexivity.
Qed.

(** C1, as the code has it: the callback calls the worker with (channel,
    method, properties, body); when the worker returns, it then acknowledges
    the delivery tag on that channel; when the worker raises, the exception
    leaves the callback and nothing is acknowledged. *)
Theorem consume_callback_acks_after_return (self : AMQPAdapter) (w : worker)
  (ch : Channel) (m : Deliver) (p : BasicProperties) (b : string) :
  _consume_worker self = Some w ->
  (w ch m p b = Returns tt ->
   consume_callback ch m p b self =
     ([EvWorker ch m p b; EvBasicAck ch (delivery_tag m)], self, Returns tt)) /\
  (forall e, w ch m p b = Raises e ->
   consume_callback ch m p b self = ([EvWorker ch m p b], self, Raises e) /\
   acked (trace (consume_callback ch m p b self)) = []).
Proof.
  intros Hw. rewrite (consume_callback_run self w ch m p b Hw). split.
  - intros Hr. rewrite Hr. reflexivity.
  - intros e Hr. rewrite Hr. split; reflexivity.
Qed.

Lemma consume_callback_acks_after_return_witness :
  consume_callback (Chan 1) tag7 json_props "{}" (consuming print_worker) =
    ([EvWorker (Chan 1) tag7 json_props "{}"; EvBasicAck (Chan 1) 7],
     consuming print_worker, Returns tt).
Proof.
  apply (consume_callback_acks_after_return (consuming print_worker)
           print_worker (Chan 1) tag7 json_props "{}" eq_refl).
  reflexivity.
Defined.

(** C1 as stated fails: with a worker that raises, the callback ends in the
    worker's exception and the trace holds the worker call and no
    acknowledgement of tag 7. *)
Lemma consume_callback_worker_raises :
  consume_callback (Chan 1) tag7 json_props "{}" (consuming failing_worker) =
    ([EvWorker (Chan 1) tag7 json_props "{}"], consuming failing_worker,
     Raises (Error "ValueError")) /\
  EvBasicAck (Chan 1) 7 ∉
    trace (consume_callback (Chan 1) tag7 json_props "{}" (consuming failing_worker)).
Proof.
  split; [reflexivity|]. unfold trace; simpl.
  intros Hin. apply list_elem_of_singleton in Hin. discriminate.
Qed.

Lemma start_consuming_handled (self : AMQPAdapter) (w : worker) (ch : Channel)
  (ds : list delivery) (rest : list arrival) :
  _consume_worker self = Some w ->
  Forall (returns_on w ch) ds ->
  start_consuming ch (map arrive ds ++ rest) self =
    (flat_map (handled ch) ds ++ trace (start_consuming ch rest self),
     final (start_consuming ch rest self),
     outcome (start_consuming ch rest self)).
Proof.
  intros Hw Hds. induction Hds as [|[[m p] b] ds Hd Hds IH].
  - simpl. destruct (start_consuming ch rest self) as [[t s] r]. reflexivity.
  - simpl in Hd. simpl. unfold bind.
    rewrite (consume_callback_run self w ch m p b Hw), Hd, IH. reflexivity.
Qed.

Lemma acked_handled (ch : Channel) (ds : list delivery) :
  acked (flat_map (handled ch) ds) = map (fun d => (ch, tag_of d)) ds.
Proof.
  induction ds as [|[[m p] b] ds IH]; [reflexivity|].
  unfold acked in *. simpl. rewrite IH. reflexivity.
Qed.

(** C5: when the worker returns normally, the callback acknowledges, after
    the worker call and on the channel of the delivery, the delivery tag of
    the method it was given, and that is the only acknowledgement it makes;
    over a whole run of deliveries the acknowledged tags are the delivered
    tags, one each, in order. *)
Theorem consume_callback_acks_delivery_tag (self : AMQPAdapter) (w : worker)
  (ch : Channel) (m : Deliver) (p : BasicProperties) (b : string) (ds : list delivery) :
  _consume_worker self = Some w ->
  w ch m p b = Returns tt ->
  Forall (returns_on w ch) ds ->
  trace (consume_callback ch m p b self) =
    [EvWorker ch m p b; EvBasicAck ch (delivery_tag m)] /\
  outcome (consume_callback ch m p b self) = Returns tt /\
  acked (trace (consume_callback ch m p b self)) = [(ch, delivery_tag m)] /\
  acked (trace (start_consuming ch (map arrive ds) self)) =
    map (fun d => (ch, tag_of d)) ds.
Proof.
  intros Hw Hr Hds. rewrite (consume_callback_run self w ch m p b Hw), Hr.
  repeat split.
  rewrite <- (app_nil_r (map arrive ds)).
  rewrite (start_consuming_handled self w ch ds [] Hw Hds).
  unfold trace at 1; simpl. rewrite app_nil_r. apply acked_handled.
Qed.

Lemma consume_callback_acks_delivery_tag_witness :
  acked (trace (consume_callback (Chan 1) tag7 json_props "[1]"
                  (consuming print_worker))) = [(Chan 1, 7)].
Proof.
  apply (consume_callback_acks_delivery_tag (consuming print_worker) print_worker
           (Chan 1) tag7 json_props "[1]" [a_delivery] eq_refl eq_refl).
  repeat constructor.
Defined.

(** ** consume *)

(** C7: the adapter is consuming on its channel, the deliveries so far were
    handled, and an interrupt arrives.  [consume] then stops consuming,
    closes the channel and the connection and returns normally, with
    [queue], [connection] and [channel] at None; whatever would have arrived
    later is not consumed. *)
Theorem consume_interrupted (self : AMQPAdapter) (w : worker) (ch : Channel)
  (c : Connection) (ds : list delivery) (later : list arrival) :
  channel self = Some ch ->
  connection self = Some c ->
  Forall (returns_on w ch) ds ->
  consume w (map arrive ds ++ Interrupt :: later) self =
    ([EvBasicConsume ch (queue self); EvStartConsuming ch]
       ++ flat_map (handled ch) ds
       ++ [EvStopConsuming ch; EvChannelClose ch; EvConnectionClose c],
     {| queue := None; connection := None; channel := None;
        _host := _host self; _credentials := _credentials self;
        _parameters := _parameters self; basic_ack := basic_ack self;
        prefetch_count := prefetch_count self;
        _consume_worker := Some w |},
     Returns tt).
Proof.
  intros Hch Hc Hds.
  destruct self as [q0 h cr pa co ch0 ba pf cw]. simpl in Hch, Hc. subst ch0 co.
  set (self := {| queue := q0; _host := h; _credentials := cr; _parameters := pa;
                  connection := Some c; channel := Some ch; basic_ack := ba;
                  prefetch_count := pf; _consume_worker := Some w |}).
  pose proof (start_consuming_handled self w ch ds (Interrupt :: later)
                eq_refl Hds) as Hloop.
  unfold consume, bind, try_except, assign, self_channel, attr, call. simpl.
  change (set_consume_worker (Some w) _) with self. rewrite Hloop. simpl.
  rewrite app_nil_r. reflexivity.
Qed.

Lemma consume_interrupted_witness :
  consume print_worker [Delivery tag7 json_props "[1]"; Interrupt;
                        Delivery tag7 json_props "[2]"] (with_queue "jobs") =
    ([EvBasicConsume (Chan 1) (Some "jobs"); EvStartConsuming (Chan 1);
      EvWorker (Chan 1) tag7 json_props "[1]"; EvBasicAck (Chan 1) 7;
      EvStopConsuming (Chan 1); EvChannelClose (Chan 1); EvConnectionClose (Conn 1)],
     {| queue := None; connection := None; channel := None;
        _host := "localhost"; _credentials := guest;
        _parameters := localhost; basic_ack := None;
        prefetch_count := None; _consume_worker := Some print_worker |},
     Returns tt).
Proof.
  apply (consume_interrupted (with_queue "jobs") print_worker (Chan 1) (Conn 1)
           [a_delivery] [Delivery tag7 json_props "[2]"] eq_refl eq_refl).
  repeat constructor.
Defined.

(** What [consume] does not absorb: an exception of the worker leaves
    [consume] with the channel and the connection still open. *)
Example consume_worker_raises :
  consume failing_worker [Delivery tag7 json_props "[1]"] (with_queue "jobs") =
    ([EvBasicConsume (Chan 1) (Some "jobs"); EvStartConsuming (Chan 1);
      EvWorker (Chan 1) tag7 json_props "[1]"],
     consuming failing_worker,
     Raises (Error "ValueError")).
Proof. reflexivity. Qed.

(** ** connect *)

Lemma run_eta {A} (r : run A) : r = (trace r, final r, outcome r).
Proof. destruct r as [[t s] o]. reflexivity. Qed.

Lemma count_app (f : event -> bool) (t1 t2 : list event) :
  count f (t1 ++ t2) = (count f t1 + count f t2)%nat.
Proof. unfold count. rewrite List.filter_app, length_app. reflexivity. Qed.

Lemma first_opening_below (net : network) (n : nat) :
  (forall k, (k < n)%nat -> opens (net k) = false) \/
  (exists m, (m < n)%nat /\ opens (net m) = true /\
             forall k, (k < m)%nat -> opens (net k) = false).
Proof.
  induction n as [|n [Hnone|[m [Hm [Hom Hlt]]]]].
  - left. intros k Hk. lia.
  - destruct (opens (net n)) eqn:Hn.
    + right. exists n. repeat split; [lia|exact Hn|exact Hnone].
    + left. intros k Hk. destruct (decide (k = n)) as [->|Hne]; [exact Hn|].
      apply Hnone. lia.
  - right. exists m. repeat split; [lia|exact Hom|exact Hlt].
Qed.

(** The first attempt that opens, at or below one that does. *)
Lemma first_opening (net : network) (n : nat) :
  opens (net n) = true ->
  exists m, (m <= n)%nat /\ opens (net m) = true /\
            forall k, (k < m)%nat -> opens (net k) = false.
Proof.
  intros Hn. destruct (first_opening_below net n) as [Hnone|[m [Hm [Hom Hlt]]]].
  - exists n. repeat split; [lia|exact Hn|exact Hnone].
  - exists m. repeat split; [lia|exact Hom|exact Hlt].
Qed.

(** The first attempt from the k-th on that is not caught, if there is one
    among the next [n]. *)
Lemma first_uncaught_below (net : network) (k n : nat) :
  (forall j, (j < n)%nat -> caught (net (k + j)%nat) = true) \/
  (exists m, (m < n)%nat /\ caught (net (k + m)%nat) = false /\
             forall j, (j < m)%nat -> caught (net (k + j)%nat) = true).
Proof.
  induction n as [|n [Hall|[m [Hm [Hcm Hlt]]]]].
  - left. intros j Hj. lia.
  - destruct (caught (net (k + n)%nat)) eqn:Hn.
    + left. intros j Hj. destruct (decide (j = n)) as [->|Hne]; [exact Hn|].
      apply Hall. lia.
    + right. exists n. repeat split; [lia|exact Hn|exact Hall].
  - right. exists m. repeat split; [lia|exact Hcm|exact Hlt].
Qed.

Lemma caught_spec (a : attempt) :
  caught a = true <-> opens a = false /\ escapes a = None.
Proof.
  destruct a as [e|c e|c ch]; unfold caught, escapes; simpl;
    try (destruct e); split; try tauto;
    try (intros [? ?]; discriminate); discriminate.
Qed.

Lemma retried_nil (net : network) (k : nat) (p : ConnectionParameters) :
  retried net k 0 p [].
Proof. repeat split. Qed.

Lemma retried_step (net : network) (k m : nat) (p : ConnectionParameters)
  (t0 t : list event) :
  caught (net k) = true ->
  (t0 = [EvBlockingConnection p]
   \/ exists c e, net k = ChannelFails c e /\
                  t0 = [EvBlockingConnection p; EvConnectionChannel c]) ->
  (forall c e, net k = ChannelFails c e ->
               t0 = [EvBlockingConnection p; EvConnectionChannel c]) ->
  retried net (S k) m p t ->
  retried net k (S m) p
    (t0 ++ match net k with
           | ConnectionFails e => EvLog (LogCouldNotConnect (exn_text e))
           | ChannelFails _ e => EvLog (LogCouldNotConnect (exn_text e))
           | Opened _ _ => EvLog LogConnected
           end :: t).
Proof.
  intros Hc Ht0 Hchan (Hw & Ha & Ho & Hcl & Hd & Hca & Hcw).
  unfold retried, warnings, attempted, opened_channels_on, closed_connections,
    declared in *.
  rewrite !flat_map_app, !count_app. simpl.
  destruct (net k) as [e|c e|c ch] eqn:Hnet; [| |discriminate].
  - destruct Ht0 as [->|[c [e' [Hbad _]]]]; [|discriminate].
    simpl. rewrite Hw, Ha, Ho, Hcl, Hd. unfold count in *. simpl.
    rewrite Hca, Hcw. repeat split.
  - rewrite (Hchan c e eq_refl).
    simpl. rewrite Hw, Ha, Ho, Hcl, Hd. unfold count in *. simpl.
    rewrite Hca, Hcw. repeat split.
Qed.

(** After [m] attempts that are caught, [connect] goes on as a [connect] at
    the next attempt, [m] calls deeper, on an adapter that differs at most
    in its connection. *)
Lemma connect_after_caught (net : network) (m : nat) :
  forall (k depth : nat) (self : AMQPAdapter),
  (forall j, (j < m)%nat -> caught (net (k + j)%nat) = true) ->
  exists (t0 : list event) (self0 : AMQPAdapter),
    (self0 = self \/ exists c, self0 = set_connection (Some c) self) /\
    retried net k m (_parameters self) t0 /\
    connect net k (m + depth) self =
      (t0 ++ trace (connect net (k + m) depth self0),
       final (connect net (k + m) depth self0),
       outcome (connect net (k + m) depth self0)).
Proof.
  induction m as [|m IH]; intros k depth self Hcaught.
  - exists [], self. split; [left; reflexivity|]. split; [apply retried_nil|].
    rewrite Nat.add_0_r. simpl. apply run_eta.
  - assert (Hk : caught (net k) = true).
    { rewrite <- (Nat.add_0_r k). apply Hcaught. lia. }
    assert (Hnext : forall j, (j < m)%nat -> caught (net (S k + j)%nat) = true).
    { intros j Hj. replace (S k + j)%nat with (k + S j)%nat by lia.
      apply Hcaught. lia. }
    replace (k + S m)%nat with (S k + m)%nat by lia.
    simpl. unfold connect_try, bind, attr, call, assign, raise.
    assert (Hexc : forall e, raised (net k) = Some e -> is_Exception e = true).
    { intros e He. unfold caught in Hk. rewrite He in Hk.
      destruct e; [discriminate|discriminate|reflexivity..]. }
    destruct (net k) as [e|c e|c ch] eqn:Hnet; [| |discriminate];
      simpl; rewrite (Hexc e eq_refl).
    + destruct (IH (S k) depth self Hnext) as [t0 [self0 [Hself [Hret Hrun]]]].
      rewrite Hrun.
      exists ([EvBlockingConnection (_parameters self)]
                ++ EvLog (LogCouldNotConnect (exn_text e)) :: t0), self0.
      split; [exact Hself|]. split; [|reflexivity].
      pose proof (retried_step net k m (_parameters self)
                    [EvBlockingConnection (_parameters self)] t0) as Hstep.
      rewrite Hnet in Hstep. apply Hstep;
        [exact Hk|left; reflexivity|intros c' e' Hbad; discriminate|exact Hret].
    + destruct (IH (S k) depth (set_connection (Some c) self) Hnext)
        as [t0 [self0 [Hself [Hret Hrun]]]].
      rewrite Hrun.
      exists ([EvBlockingConnection (_parameters self); EvConnectionChannel c]
                ++ EvLog (LogCouldNotConnect (exn_text e)) :: t0), self0.
      split.
      { right. destruct Hself as [->|[c' ->]]; eauto. }
      split; [|reflexivity].
      pose proof (retried_step net k m (_parameters self)
                    [EvBlockingConnection (_parameters self); EvConnectionChannel c]
                    t0) as Hstep.
      rewrite Hnet in Hstep. apply Hstep;
        [exact Hk|right; eauto| |exact Hret].
      intros c' e' Heq. injection Heq as <- <-. reflexivity.
Qed.

(** C8, where the code departs from it: [connect] retries by calling itself,
    so it can retry only as deep as the interpreter lets calls nest.  When
    the attempts fail for as long as that, [connect] ends in RecursionError,
    after one attempt and one warning per call allowed and without a
    channel, whether or not the next attempt would have opened. *)
Theorem connect_recursion_limit (net : network) (k depth : nat)
  (self : AMQPAdapter) :
  (forall j, (j < depth)%nat -> caught (net (k + j)%nat) = true) ->
  outcome (connect net k depth self) = Raises RecursionError /\
  channel (final (connect net k depth self)) = channel self /\
  count is_attempt (trace (connect net k depth self)) = depth /\
  count is_warning (trace (connect net k depth self)) = depth.
Proof.
  intros Hcaught.
  destruct (connect_after_caught net depth k 0 self Hcaught)
    as [t0 [self0 [Hself [Hret Hrun]]]].
  rewrite Nat.add_0_r in Hrun. rewrite Hrun. simpl.
  destruct Hret as (_ & _ & _ & _ & _ & Hca & Hcw).
  unfold outcome, final, trace; simpl. rewrite app_nil_r.
  split; [reflexivity|]. split; [|split; assumption].
  destruct Hself as [->|[c ->]]; reflexivity.
Qed.

Lemma connect_recursion_limit_witness :
  outcome (connect late 0 996 connected) = Raises RecursionError /\
  channel (final (connect late 0 996 connected)) = channel connected /\
  count is_attempt (trace (connect late 0 996 connected)) = 996%nat /\
  count is_warning (trace (connect late 0 996 connected)) = 996%nat.
Proof.
  apply (connect_recursion_limit late 0 996 connected).
  intros j Hj. unfold late. simpl.
  destruct (Nat.ltb_spec j 996%nat) as [_|Hge]; [reflexivity|lia].
Defined.

(** The attempt that the run above never makes would have opened. *)
Example late_opens : late 996%nat = Opened (Conn 1) (Chan 1).
Proof. reflexivity. Qed.

(** The constructor on the flaky network: three attempts, two warnings. *)
Example init_on_flaky :
  __init__ flaky 3 "localhost" 5672 "guest" "guest" "/" =
    ([EvBlockingConnection localhost;
      EvLog (LogCouldNotConnect "refused");
      EvBlockingConnection localhost;
      EvConnectionChannel (Conn 1);
      EvLog (LogCouldNotConnect "channel closed");
      EvBlockingConnection localhost;
      EvConnectionChannel (Conn 2);
      EvLog LogConnected],
     set_channel (Some (Chan 2)) (set_connection (Some (Conn 2)) connected),
     Returns tt).
Proof. reflexivity. Qed.

(** With one call fewer allowed than attempts needed, it ends in
    RecursionError. *)
Example init_on_flaky_cut :
  outcome (__init__ flaky 2 "localhost" 5672 "guest" "guest" "/") =
    Raises RecursionError.
Proof. reflexivity. Qed.

(** ** basic_ack *)

Section Blind.
Context {A B : Type}.

Lemma blind_ret (a : A) : blind (ret a).
Proof. intros b self. reflexivity. Qed.

Lemma blind_raise (e : exn) : blind (@raise A e).
Proof. intros b self. reflexivity. Qed.

Lemma blind_returned (r : result A) : blind (returned r).
Proof. intros b self. reflexivity. Qed.

Lemma blind_attr (f : AMQPAdapter -> A) :
  (forall b self, f (set_basic_ack b self) = f self) -> blind (attr f).
Proof. intros Hf b self. unfold attr. rewrite Hf. reflexivity. Qed.

Lemma blind_bind (m : M A) (k : A -> M B) :
  blind m -> (forall a, blind (k a)) -> blind (bind m k).
Proof.
  intros Hm Hk b self. unfold bind. rewrite Hm.
  destruct (m self) as [[t self'] [a|e]]; unfold trace, final, outcome; simpl;
    [|reflexivity].
  rewrite Hk. destruct (k a self') as [[t' self''] r]. reflexivity.
Qed.

Lemma blind_try_except (m : M A) (h : exn -> M A) :
  blind m -> (forall e, blind (h e)) -> blind (try_except m h).
Proof.
  intros Hm Hh b self. unfold try_except. rewrite Hm.
  destruct (m self) as [[t self'] [a|e]]; unfold trace, final, outcome; simpl;
    [reflexivity|].
  rewrite Hh. destruct (h e self') as [[t' self''] r]. reflexivity.
Qed.
End Blind.

Lemma blind_call (ev : event) : blind (call ev).
Proof. intros b self. reflexivity. Qed.

Lemma blind_assign (g : AMQPAdapter -> AMQPAdapter) :
  (forall b self, g (set_basic_ack b self) = set_basic_ack b (g self)) ->
  blind (assign g).
Proof. intros Hg b self. unfold assign. rewrite Hg. reflexivity. Qed.

Lemma blind_self_channel (name : string) : blind (self_channel name).
Proof. intros b self. unfold self_channel. simpl. destruct (channel self); reflexivity. Qed.

Lemma blind_self_connection (name : string) : blind (self_connection name).
Proof.
  intros b self. unfold self_connection. simpl. destruct (connection self); reflexivity.
Qed.

Create HintDb blind.
#[local] Hint Resolve blind_ret blind_raise blind_returned blind_call
  blind_self_channel blind_self_connection : blind.
#[local] Hint Extern 1 (blind (bind _ _)) => apply blind_bind; [|intros ?] : blind.
#[local] Hint Extern 1 (blind (attr _)) => apply blind_attr; reflexivity : blind.
#[local] Hint Extern 1 (blind (assign _)) => apply blind_assign; reflexivity : blind.

Lemma blind_close : blind close.
Proof. unfold close. auto 20 with blind. Qed.

Lemma blind_send (message : Message) : blind (send message).
Proof. unfold send, format_message. auto 20 with blind. Qed.

Lemma blind_consume_callback (ch : Channel) (m : Deliver) (p : BasicProperties)
  (b : string) : blind (consume_callback ch m p b).
Proof.
  unfold consume_callback, consume_acknowledge.
  apply blind_bind; [auto with blind|]. intros [w|]; auto 20 with blind.
Qed.

Lemma blind_start_consuming (ch : Channel) (arrivals : list arrival) :
  blind (start_consuming ch arrivals).
Proof.
  induction arrivals as [|[m p b|] arrivals IH]; simpl; auto with blind.
  apply blind_bind; [apply blind_consume_callback|]. intros _. exact IH.
Qed.

Lemma blind_consume (w : worker) (arrivals : list arrival) :
  blind (consume w arrivals).
Proof.
  unfold consume.
  repeat (apply blind_bind; [auto with blind|intros ?]).
  apply blind_try_except.
  - repeat (apply blind_bind; [auto with blind|intros ?]).
    apply blind_start_consuming.
  - intros []; auto using blind_close with blind.
Qed.

Lemma same_but_basic_ack_set (a1 a2 : AMQPAdapter) :
  same_but_basic_ack a1 a2 -> a1 = set_basic_ack (basic_ack a1) a2.
Proof.
  unfold same_but_basic_ack. intros H.
  destruct a1, a2. simpl in *. injection H as -> -> -> -> -> -> -> ->. reflexivity.
Qed.

Lemma blind_agree {A} (m : M A) (a1 a2 : AMQPAdapter) :
  blind m -> same_but_basic_ack a1 a2 -> agree (m a1) (m a2).
Proof.
  intros Hm Hsame. rewrite (same_but_basic_ack_set a1 a2 Hsame), Hm.
  unfold agree, trace, final, outcome. simpl. repeat split.
Qed.

Lemma configurate_queue_basic_ack (self : AMQPAdapter) (kw : kwargs)
  (b1 b2 : option bool) :
  same_but_basic_ack
    (final (configurate_queue (kw_set_basic_ack b1 kw) self))
    (final (configurate_queue (kw_set_basic_ack b2 kw) self)).
Proof.
  destruct self as [q0 h cr pa co ch0 ba pf cw].
  unfold same_but_basic_ack, configurate_queue, bind, attr, assign, call, ret,
    self_channel, self_prefetch_count, default, final; simpl.
  destruct (not_ q0); [|reflexivity].
  destruct ch0 as [ch|]; [|reflexivity].
  destruct (kw_prefetch_count kw) as [n|]; cbn -[Z.ltb];
    try (destruct (0 <? n)); reflexivity.
Qed.

Lemma configurate_queue_stores_basic_ack (self : AMQPAdapter) (kw : kwargs) :
  not_ (queue self) = true ->
  basic_ack (final (configurate_queue kw self)) =
    Some (match kw_basic_ack kw with Some b => b | None => true end).
Proof.
  intros Hq. destruct self as [q0 h cr pa co ch0 ba pf cw]. simpl in Hq.
  unfold configurate_queue, bind, attr, assign, call, ret, self_channel,
    self_prefetch_count, default, final; simpl. rewrite Hq.
  destruct ch0 as [ch|]; [|destruct (kw_basic_ack kw); reflexivity].
  destruct (kw_queue kw), (kw_basic_ack kw), (kw_prefetch_count kw) as [n|];
    cbn -[Z.ltb]; try (destruct (0 <? n)); reflexivity.
Qed.

(** C9: basic_ack is stored by [configurate_queue] and read by no later
    operation.  A [configurate_queue] that configures (no queue name yet)
    stores the basic_ack it is given, True when it is given none.  Two
    configurations that differ in basic_ack only leave adapters that differ
    in basic_ack only; on two such adapters [send], [close], [consume] and
    [consume_callback] make the same calls, end the same way and leave
    adapters that again differ in basic_ack only; and a delivery the worker
    handled is acknowledged also when basic_ack is False, be it set by hand
    or stored by a [configurate_queue] with basic_ack=False. *)
Theorem basic_ack_is_never_read (a1 a2 : AMQPAdapter) (message : Message)
  (w : worker) (arrivals : list arrival) (ch : Channel) (m : Deliver)
  (p : BasicProperties) (b : string) :
  same_but_basic_ack a1 a2 ->
  (forall self kw b1 b2,
     same_but_basic_ack
       (final (configurate_queue (kw_set_basic_ack b1 kw) self))
       (final (configurate_queue (kw_set_basic_ack b2 kw) self))) /\
  agree (send message a1) (send message a2) /\
  agree (close a1) (close a2) /\
  agree (consume w arrivals a1) (consume w arrivals a2) /\
  agree (consume_callback ch m p b a1) (consume_callback ch m p b a2) /\
  (basic_ack a1 = Some false ->
   _consume_worker a1 = Some w ->
   w ch m p b = Returns tt ->
   consume_callback ch m p b a1 =
     ([EvWorker ch m p b; EvBasicAck ch (delivery_tag m)], a1, Returns tt)) /\
  (forall self kw,
     not_ (queue self) = true ->
     basic_ack (final (configurate_queue kw self)) =
       Some (match kw_basic_ack kw with Some v => v | None => true end)) /\
  (forall self kw,
     not_ (queue self) = true ->
     channel self = Some ch ->
     w ch m p b = Returns tt ->
     let configured := final (configurate_queue (kw_set_basic_ack (Some false) kw) self) in
     basic_ack configured = Some false /\
     consume w [Delivery m p b] configured =
       ([EvBasicConsume ch (queue configured); EvStartConsuming ch;
         EvWorker ch m p b; EvBasicAck ch (delivery_tag m)],
        set_consume_worker (Some w) configured, Returns tt)).
Proof.
  intros Hsame. split; [exact configurate_queue_basic_ack|].
  split; [exact (blind_agree _ a1 a2 (blind_send message) Hsame)|].
  split; [exact (blind_agree _ a1 a2 blind_close Hsame)|].
  split; [exact (blind_agree _ a1 a2 (blind_consume w arrivals) Hsame)|].
  split; [exact (blind_agree _ a1 a2 (blind_consume_callback ch m p b) Hsame)|].
  split.
  { intros _ Hw Hr. rewrite (consume_callback_run a1 w ch m p b Hw), Hr.
    reflexivity. }
  split; [exact configurate_queue_stores_basic_ack|].
  intros self kw Hq Hch Hr configured.
  assert (Hack : basic_ack configured = Some false).
  { subst configured. rewrite (configurate_queue_stores_basic_ack _ _ Hq).
    reflexivity. }
  split; [exact Hack|].
  assert (Hch' : channel configured = Some ch).
  { subst configured. destruct self as [q0 h cr pa co ch0 ba pf cw].
    simpl in Hq, Hch. subst ch0.
    unfold configurate_queue, bind, attr, assign, call, ret, self_channel,
      self_prefetch_count, default, final; simpl. rewrite Hq.
    destruct (kw_queue kw), (kw_prefetch_count kw) as [n|];
      cbn -[Z.ltb]; try (destruct (0 <? n)); reflexivity. }
  generalize dependent configured. intros configured _ Hch'.
  destruct configured as [q0 h cr pa co ch0 ba pf cw]. simpl in Hch'. subst ch0.
  unfold consume. simpl. unfold consume_callback, consume_acknowledge.
  unfold bind, try_except, assign, self_channel, attr, call, returned. simpl.
  rewrite Hr. reflexivity.
Qed.

Lemma basic_ack_is_never_read_witness :
  let configured :=
    final (configurate_queue (kw_set_basic_ack (Some false) prefetch5) connected) in
  basic_ack configured = Some false /\
  consume print_worker [Delivery tag7 json_props "[1]"] configured =
    ([EvBasicConsume (Chan 1) (queue configured); EvStartConsuming (Chan 1);
      EvWorker (Chan 1) tag7 json_props "[1]"; EvBasicAck (Chan 1) 7],
     set_consume_worker (Some print_worker) configured, Returns tt).
Proof.
  apply (basic_ack_is_never_read
           (set_basic_ack (Some false) (consuming print_worker))
           (set_basic_ack (Some true) (consuming print_worker))
           plain_message print_worker [Interrupt] (Chan 1) tag7 json_props "[1]"
           eq_refl); reflexivity.
Defined.

(** Configured with basic_ack=False, the adapter still acknowledges. *)
Example no_ack_configured_still_acks :
  let kw := kw_set_basic_ack (Some false) prefetch5 in
  let self := set_consume_worker (Some print_worker)
                (final (configurate_queue kw connected)) in
  basic_ack self = Some false /\
  acked (trace (start_consuming (Chan 1) [arrive a_delivery] self)) = [(Chan 1, 7)].
Proof. split; reflexivity. Qed.

(** ** connect, however it ends *)

Lemma connect_step_opened (net : network) (k d : nat) (self : AMQPAdapter)
  (c : Connection) (ch : Channel) :
  net k = Opened c ch ->
  connect net k (S d) self =
    ([EvBlockingConnection (_parameters self); EvConnectionChannel c;
      EvLog LogConnected],
     set_channel (Some ch) (set_connection (Some c) self), Returns tt).
Proof.
  intros Hnet. simpl. unfold connect_try, bind, attr, call, assign.
  rewrite Hnet. reflexivity.
Qed.

Lemma connect_step_escapes (net : network) (k d : nat) (self : AMQPAdapter)
  (e : exn) :
  escapes (net k) = Some e ->
  exists (tl : list event) (self' : AMQPAdapter),
    connect net k (S d) self = (tl, self', Raises e) /\
    (self' = self \/ exists c, self' = set_connection (Some c) self) /\
    (tl = [EvBlockingConnection (_parameters self)] \/
     exists c, tl = [EvBlockingConnection (_parameters self); EvConnectionChannel c]).
Proof.
  intros Hesc. simpl. unfold connect_try, bind, attr, call, assign, raise.
  unfold escapes in Hesc.
  destruct (net k) as [e'|c e'|c ch]; simpl in Hesc; [| |discriminate];
    destruct e'; try discriminate; injection Hesc as <-; simpl;
    eexists; eexists; (split; [reflexivity|]); split; eauto.
Qed.

Lemma connect_opens_at (net : network) (m k depth : nat) (self : AMQPAdapter)
  (c : Connection) (ch : Channel) :
  (forall j, (j < m)%nat -> caught (net (k + j)%nat) = true) ->
  net (k + m)%nat = Opened c ch ->
  (m < depth)%nat ->
  exists t0,
    retried net k m (_parameters self) t0 /\
    connect net k depth self =
      (t0 ++ [EvBlockingConnection (_parameters self); EvConnectionChannel c;
              EvLog LogConnected],
       set_channel (Some ch) (set_connection (Some c) self), Returns tt).
Proof.
  intros Hcaught Hopen Hdepth.
  replace depth with (m + S (depth - S m))%nat by lia.
  destruct (connect_after_caught net m k (S (depth - S m)) self Hcaught)
    as [t0 [self0 [Hself [Hret Hrun]]]].
  exists t0. split; [exact Hret|]. rewrite Hrun.
  rewrite (connect_step_opened net (k + m) _ self0 c ch Hopen).
  destruct Hself as [->|[c' ->]]; reflexivity.
Qed.

(** Every run of [connect] is of one of three kinds. *)
Lemma connect_run_cases (net : network) (k depth : nat) (self : AMQPAdapter) :
  (exists (m : nat) (c : Connection) (ch : Channel) (t0 : list event),
     (m < depth)%nat /\
     (forall j, (j < m)%nat -> caught (net (k + j)%nat) = true) /\
     net (k + m)%nat = Opened c ch /\
     retried net k m (_parameters self) t0 /\
     connect net k depth self =
       (t0 ++ [EvBlockingConnection (_parameters self); EvConnectionChannel c;
               EvLog LogConnected],
        set_channel (Some ch) (set_connection (Some c) self), Returns tt)) \/
  (exists (t0 : list event) (self0 : AMQPAdapter),
     (forall j, (j < depth)%nat -> caught (net (k + j)%nat) = true) /\
     retried net k depth (_parameters self) t0 /\
     (self0 = self \/ exists c, self0 = set_connection (Some c) self) /\
     connect net k depth self = (t0, self0, Raises RecursionError)) \/
  (exists (m : nat) (e : exn) (t0 tl : list event) (self0 : AMQPAdapter),
     (m < depth)%nat /\
     (forall j, (j < m)%nat -> caught (net (k + j)%nat) = true) /\
     escapes (net (k + m)%nat) = Some e /\
     retried net k m (_parameters self) t0 /\
     (self0 = self \/ exists c, self0 = set_connection (Some c) self) /\
     (tl = [EvBlockingConnection (_parameters self)] \/
      exists c, tl = [EvBlockingConnection (_parameters self); EvConnectionChannel c]) /\
     connect net k depth self = (t0 ++ tl, self0, Raises e)).
Proof.
  destruct (first_uncaught_below net k depth) as [Hall|[m [Hm [Hcm Hlt]]]].
  - right; left.
    destruct (connect_after_caught net depth k 0 self Hall)
      as [t0 [self0 [Hself [Hret Hrun]]]].
    rewrite Nat.add_0_r in Hrun. simpl in Hrun. rewrite app_nil_r in Hrun.
    exists t0, self0.
    split; [exact Hall|]. split; [exact Hret|]. split; [exact Hself|]. exact Hrun.
  - destruct (net (k + m)%nat) as [e|c e|c ch] eqn:Hnet.
    + right; right.
      assert (Hesc : escapes (net (k + m)%nat) = Some e).
      { rewrite Hnet. unfold caught, escapes in *. simpl in *.
        destruct e; try discriminate; reflexivity. }
      destruct (connect_after_caught net m k (S (depth - S m)) self Hlt)
        as [t0 [self0 [Hself [Hret Hrun]]]].
      replace (m + S (depth - S m))%nat with depth in Hrun by lia.
      destruct (connect_step_escapes net (k + m) (depth - S m) self0 e Hesc)
        as [tl [self' [Hstep [Hself' Htl]]]].
      rewrite Hstep in Hrun. simpl in Hrun.
      exists m, e, t0, tl, self'.
      split; [exact Hm|]. split; [exact Hlt|]. split; [exact Hesc|].
      split; [exact Hret|].
      split; [destruct Hself as [->|[c0 ->]], Hself' as [->|[c1 ->]]; eauto|].
      split; [destruct Hself as [->|[c0 ->]]; exact Htl|exact Hrun].
    + right; right.
      assert (Hesc : escapes (net (k + m)%nat) = Some e).
      { rewrite Hnet. unfold caught, escapes in *. simpl in *.
        destruct e; try discriminate; reflexivity. }
      destruct (connect_after_caught net m k (S (depth - S m)) self Hlt)
        as [t0 [self0 [Hself [Hret Hrun]]]].
      replace (m + S (depth - S m))%nat with depth in Hrun by lia.
      destruct (connect_step_escapes net (k + m) (depth - S m) self0 e Hesc)
        as [tl [self' [Hstep [Hself' Htl]]]].
      rewrite Hstep in Hrun. simpl in Hrun.
      exists m, e, t0, tl, self'.
      split; [exact Hm|]. split; [exact Hlt|]. split; [exact Hesc|].
      split; [exact Hret|].
      split; [destruct Hself as [->|[c0 ->]], Hself' as [->|[c1 ->]]; eauto|].
      split; [destruct Hself as [->|[c0 ->]]; exact Htl|exact Hrun].
    + left. destruct (connect_opens_at net m k depth self c ch Hlt Hnet Hm)
        as [t0 [Hret Hrun]].
      exists m, c, ch, t0.
      split; [exact Hm|]. split; [exact Hlt|]. split; [exact Hnet|].
      split; [exact Hret|]. exact Hrun.
Qed.

Lemma connect_returned (net : network) (k depth : nat) (self : AMQPAdapter)
  (t : list event) (a : AMQPAdapter) :
  connect net k depth self = (t, a, Returns tt) ->
  exists (m : nat) (c : Connection) (ch : Channel) (t0 : list event),
    (m < depth)%nat /\
    (forall j, (j < m)%nat -> caught (net (k + j)%nat) = true) /\
    net (k + m)%nat = Opened c ch /\
    retried net k m (_parameters self) t0 /\
    t = t0 ++ [EvBlockingConnection (_parameters self); EvConnectionChannel c;
               EvLog LogConnected] /\
    a = set_channel (Some ch) (set_connection (Some c) self).
Proof.
  intros Hrun.
  destruct (connect_run_cases net k depth self)
    as [(m & c & ch & t0 & Hm & Hlt & Hopen & Hret & Hrun')
       |[(t0 & self0 & _ & _ & _ & Hrun')
        |(m & e & t0 & tl & self0 & _ & _ & _ & _ & _ & _ & Hrun')]];
    rewrite Hrun' in Hrun; [|discriminate|discriminate].
  injection Hrun as <- <-. exists m, c, ch, t0.
  split; [exact Hm|]. split; [exact Hlt|]. split; [exact Hopen|].
  split; [exact Hret|]. split; reflexivity.
Qed.

Lemma connect_final_shape (net : network) (k depth : nat) (self : AMQPAdapter) :
  final (connect net k depth self) = self \/
  (exists c, final (connect net k depth self) = set_connection (Some c) self) \/
  (exists c ch, final (connect net k depth self) =
                  set_channel (Some ch) (set_connection (Some c) self)).
Proof.
  destruct (connect_run_cases net k depth self)
    as [(m & c & ch & t0 & _ & _ & _ & _ & ->)
       |[(t0 & self0 & _ & _ & Hself & ->)
        |(m & e & t0 & tl & self0 & _ & _ & _ & _ & Hself & _ & ->)]];
    unfold final; simpl; eauto; destruct Hself as [->|[c ->]]; eauto.
Qed.

Lemma attempted_app (t1 t2 : list event) :
  attempted (t1 ++ t2) = attempted t1 ++ attempted t2.
Proof. unfold attempted. apply flat_map_app. Qed.

Lemma connect_attempts_parameters (net : network) (k depth : nat)
  (self : AMQPAdapter) :
  Forall (fun p => p = _parameters self) (attempted (trace (connect net k depth self))).
Proof.
  destruct (connect_run_cases net k depth self)
    as [(m & c & ch & t0 & _ & _ & _ & Hret & ->)
       |[(t0 & self0 & _ & Hret & _ & ->)
        |(m & e & t0 & tl & self0 & _ & _ & _ & Hret & _ & Htl & ->)]];
    destruct Hret as (_ & Ha & _); unfold trace; simpl;
    rewrite ?attempted_app, Ha.
  - apply Forall_app. split; [apply Forall_replicate; reflexivity|].
    simpl. repeat constructor.
  - apply Forall_replicate. reflexivity.
  - apply Forall_app. split; [apply Forall_replicate; reflexivity|].
    destruct Htl as [->|[c ->]]; simpl; repeat constructor.
Qed.

(** X1: [connect] returns only connected, and ends in one of three ways.
    Either an attempt within the call depth opens after failures that were
    all ordinary errors: it returns normally, the adapter holds that
    attempt's connection and channel and is otherwise as it was.  Or every
    attempt the depth allows fails with an ordinary error: it raises
    RecursionError.  Or an attempt is hit by KeyboardInterrupt or
    SystemExit: it raises that, at once and without a warning.  In the
    last two the channel is as before, and every attempt made used
    [self._parameters]. *)
Theorem connect_returns_or_raises (net : network) (k depth : nat)
  (self : AMQPAdapter) :
  (exists (m : nat) (c : Connection) (ch : Channel),
     (m < depth)%nat /\
     (forall j, (j < m)%nat -> caught (net (k + j)%nat) = true) /\
     net (k + m)%nat = Opened c ch /\
     outcome (connect net k depth self) = Returns tt /\
     final (connect net k depth self) =
       set_channel (Some ch) (set_connection (Some c) self) /\
     warnings (trace (connect net k depth self)) = failures net k m /\
     attempted (trace (connect net k depth self)) =
       replicate (S m) (_parameters self)) \/
  ((forall j, (j < depth)%nat -> caught (net (k + j)%nat) = true) /\
   outcome (connect net k depth self) = Raises RecursionError /\
   channel (final (connect net k depth self)) = channel self /\
   warnings (trace (connect net k depth self)) = failures net k depth /\
   attempted (trace (connect net k depth self)) =
     replicate depth (_parameters self)) \/
  (exists (m : nat) (e : exn),
     (m < depth)%nat /\
     (forall j, (j < m)%nat -> caught (net (k + j)%nat) = true) /\
     raised (net (k + m)%nat) = Some e /\
     (e = KeyboardInterrupt \/ e = SystemExit) /\
     outcome (connect net k depth self) = Raises e /\
     channel (final (connect net k depth self)) = channel self /\
     warnings (trace (connect net k depth self)) = failures net k m /\
     attempted (trace (connect net k depth self)) =
       replicate (S m) (_parameters self)).
Proof.
  destruct (connect_run_cases net k depth self)
    as [(m & c & ch & t0 & Hm & Hlt & Hopen & Hret & Hrun)
       |[(t0 & self0 & Hall & Hret & Hself & Hrun)
        |(m & e & t0 & tl & self0 & Hm & Hlt & Hesc & Hret & Hself & Htl & Hrun)]];
    rewrite Hrun; destruct Hret as (Hw & Ha & _);
    unfold outcome, final, trace; simpl.
  - left. exists m, c, ch.
    split; [exact Hm|]. split; [exact Hlt|]. split; [exact Hopen|].
    split; [reflexivity|]. split; [reflexivity|].
    unfold warnings in *. rewrite attempted_app, flat_map_app, Hw, Ha. simpl.
    rewrite app_nil_r. split; [reflexivity|].
    change (replicate m (_parameters self) ++ replicate 1 (_parameters self) =
            replicate (S m) (_parameters self)).
    rewrite <- replicate_add. f_equal. lia.
  - right; left.
    split; [exact Hall|]. split; [reflexivity|].
    split; [destruct Hself as [->|[c ->]]; reflexivity|].
    split; assumption.
  - right; right. exists m, e.
    split; [exact Hm|]. split; [exact Hlt|].
    assert (Hraised : raised (net (k + m)%nat) = Some e
                      /\ (e = KeyboardInterrupt \/ e = SystemExit)).
    { unfold escapes in Hesc. destruct (raised (net (k + m)%nat)) as [[]|];
        try discriminate; injection Hesc as <-; eauto. }
    destruct Hraised as [Hraised He].
    split; [exact Hraised|]. split; [exact He|]. split; [reflexivity|].
    split; [destruct Hself as [->|[c ->]]; reflexivity|].
    unfold warnings in *. rewrite attempted_app, flat_map_app, Hw, Ha.
    destruct Htl as [->|[c ->]]; simpl; rewrite app_nil_r;
      (split; [reflexivity|]);
      change (replicate m (_parameters self) ++ replicate 1 (_parameters self) =
              replicate (S m) (_parameters self));
      rewrite <- replicate_add; f_equal; lia.
Qed.

(** An interrupt while the channel is being opened leaves [connect] at
    once, with the new connection stored and no channel. *)
Example connect_interrupted :
  connect interrupted 0 5 (cleared connected) =
    ([EvBlockingConnection localhost;
      EvLog (LogCouldNotConnect "refused");
      EvBlockingConnection localhost;
      EvConnectionChannel (Conn 1)],
     set_connection (Some (Conn 1)) (cleared connected),
     Raises KeyboardInterrupt).
Proof. reflexivity. Qed.

(** X2: [connect] logs one warning per failed attempt, with the text of the
    failure, in order; it asks for a channel on every connection it opened;
    and it closes none of them, so the connections whose channel failed are
    left open behind the one the adapter keeps. *)
Theorem connect_logs_failures_and_closes_nothing (net : network) (k depth : nat)
  (self : AMQPAdapter) (t : list event) (a : AMQPAdapter) :
  connect net k depth self = (t, a, Returns tt) ->
  exists (m : nat) (c : Connection),
    connection a = Some c /\
    warnings t = failures net k m /\
    opened_channels_on t = half_opened net k m ++ [c] /\
    closed_connections t = [].
Proof.
  intros Hrun.
  destruct (connect_returned net k depth self t a Hrun)
    as (m & c & ch & t0 & _ & _ & _ & Hret & -> & ->).
  destruct Hret as (Hw & _ & Ho & Hc & _).
  exists m, c. split; [reflexivity|].
  unfold warnings, opened_channels_on, closed_connections in *.
  rewrite !flat_map_app, Hw, Ho, Hc. simpl. rewrite app_nil_r. repeat split.
Qed.

Lemma connect_logs_failures_and_closes_nothing_witness :
  exists (m : nat) (c : Connection),
    connection (set_channel (Some (Chan 2)) (set_connection (Some (Conn 2)) connected))
      = Some c /\
    warnings
      [EvBlockingConnection localhost;
       EvLog (LogCouldNotConnect "refused");
       EvBlockingConnection localhost;
       EvConnectionChannel (Conn 1);
       EvLog (LogCouldNotConnect "channel closed");
       EvBlockingConnection localhost;
       EvConnectionChannel (Conn 2);
       EvLog LogConnected] = failures flaky 0 m /\
    opened_channels_on
      [EvBlockingConnection localhost;
       EvLog (LogCouldNotConnect "refused");
       EvBlockingConnection localhost;
       EvConnectionChannel (Conn 1);
       EvLog (LogCouldNotConnect "channel closed");
       EvBlockingConnection localhost;
       EvConnectionChannel (Conn 2);
       EvLog LogConnected] = half_opened flaky 0 m ++ [c] /\
    closed_connections
      [EvBlockingConnection localhost;
       EvLog (LogCouldNotConnect "refused");
       EvBlockingConnection localhost;
       EvConnectionChannel (Conn 1);
       EvLog (LogCouldNotConnect "channel closed");
       EvBlockingConnection localhost;
       EvConnectionChannel (Conn 2);
       EvLog LogConnected] = [].
Proof.
  apply (connect_logs_failures_and_closes_nothing flaky 0 3 connected).
  reflexivity.
Defined.

(** X3: what holds of "connects in the end".  If some attempt opens, no
    attempt before it is hit by KeyboardInterrupt or SystemExit, and the
    call depth is above the number of failed attempts, then [connect]
    returns normally at the first attempt that opens, after one warning per
    failed attempt, and the adapter holds that attempt's connection and
    channel; run from [__init__], it leaves an adapter without a queue. *)
Theorem connect_eventually_connects (net : network) (n : nat) (self : AMQPAdapter)
  (host : string) (port : Z) (user password vhost : string) :
  opens (net n) = true ->
  (forall j, (j < n)%nat -> escapes (net j) = None) ->
  exists (m : nat) (c : Connection) (ch : Channel),
    (m <= n)%nat /\
    net m = Opened c ch /\
    (forall j, (j < m)%nat -> caught (net j) = true) /\
    forall depth, (m < depth)%nat ->
      (exists t,
         connect net 0 depth self =
           (t, set_channel (Some ch) (set_connection (Some c) self), Returns tt) /\
         count is_attempt t = S m /\
         count is_warning t = m) /\
      (exists t a,
         __init__ net depth host port user password vhost = (t, a, Returns tt) /\
         connection a = Some c /\
         channel a = Some ch /\
         queue a = None /\
         count is_attempt t = S m /\
         count is_warning t = m).
Proof.
  intros Hn Hesc. destruct (first_opening net n Hn) as [m [Hm [Hom Hlt]]].
  destruct (net m) as [e|c' e|c ch] eqn:Hnet; try discriminate.
  assert (Hcaught : forall j, (j < m)%nat -> caught (net (0 + j)%nat) = true).
  { intros j Hj. simpl. apply caught_spec. split; [apply Hlt; exact Hj|].
    apply Hesc. lia. }
  exists m, c, ch.
  split; [exact Hm|]. split; [exact Hnet|]. split; [exact Hcaught|].
  intros depth Hdepth. split.
  - destruct (connect_opens_at net m 0 depth self c ch Hcaught Hnet Hdepth)
      as [t0 [Hret Hrun]].
    eexists. split; [exact Hrun|].
    destruct Hret as (_ & _ & _ & _ & _ & Hca & Hcw).
    rewrite !count_app, Hca, Hcw. unfold count. simpl. split; lia.
  - unfold __init__.
    match goal with |- context [connect net 0 depth ?s] =>
      destruct (connect_opens_at net m 0 depth s c ch Hcaught Hnet Hdepth)
        as [t0 [Hret Hrun]]
    end.
    eexists. eexists. split; [exact Hrun|].
    destruct Hret as (_ & _ & _ & _ & _ & Hca & Hcw).
    rewrite !count_app, Hca, Hcw. unfold count. simpl. repeat split; lia.
Qed.

Lemma connect_eventually_connects_witness :
  exists (m : nat) (c : Connection) (ch : Channel),
    (m <= 5)%nat /\
    flaky m = Opened c ch /\
    (forall j, (j < m)%nat -> caught (flaky j) = true) /\
    forall depth, (m < depth)%nat ->
      (exists t,
         connect flaky 0 depth connected =
           (t, set_channel (Some ch) (set_connection (Some c) connected), Returns tt) /\
         count is_attempt t = S m /\
         count is_warning t = m) /\
      (exists t a,
         __init__ flaky depth "localhost" 5672 "guest" "guest" "/" = (t, a, Returns tt) /\
         connection a = Some c /\
         channel a = Some ch /\
         queue a = None /\
         count is_attempt t = S m /\
         count is_warning t = m).
Proof.
  apply (connect_eventually_connects flaky 5 connected
           "localhost" 5672 "guest" "guest" "/").
  - reflexivity.
  - intros [|[|j]] Hj; reflexivity.
Defined.

(** ** The constructor, whenever it returns *)

(** X4: whenever [__init__] returns, the adapter stores the host, the
    credentials and the connection parameters it was given, holds a
    connection and a channel, and has no queue, no basic_ack, no
    prefetch_count and no worker yet; and every connection attempt it made
    used exactly those parameters. *)
Theorem init_returns_constructed (net : network) (depth : nat) (host : string)
  (port : Z) (user password vhost : string)
  (t : list event) (a : AMQPAdapter) :
  __init__ net depth host port user password vhost = (t, a, Returns tt) ->
  let creds := {| username := user; password := password |} in
  let params := {| host := host; port := port; virtual_host := vhost;
                   credentials := creds |} in
  (exists (c : Connection) (ch : Channel),
     a = {| queue := None; _host := host; _credentials := creds;
            _parameters := params;
            connection := Some c; channel := Some ch;
            basic_ack := None; prefetch_count := None;
            _consume_worker := None |}) /\
  Forall (fun p => p = params) (attempted t).
Proof.
  intros Hrun creds params. unfold __init__ in Hrun.
  match type of Hrun with
  | connect net 0 depth ?s = _ =>
      pose proof (connect_attempts_parameters net 0 depth s) as Hatt
  end.
  rewrite Hrun in Hatt.
  destruct (connect_returned _ _ _ _ _ _ Hrun)
    as (m & c & ch & t0 & _ & _ & _ & _ & _ & Ha).
  split; [|exact Hatt].
  exists c, ch. rewrite Ha. reflexivity.
Qed.

Lemma init_returns_constructed_witness :
  Forall (fun p => p = localhost)
    (attempted
       [EvBlockingConnection localhost;
        EvLog (LogCouldNotConnect "refused");
        EvBlockingConnection localhost;
        EvConnectionChannel (Conn 1);
        EvLog (LogCouldNotConnect "channel closed");
        EvBlockingConnection localhost;
        EvConnectionChannel (Conn 2);
        EvLog LogConnected]).
Proof.
  apply (init_returns_constructed flaky 3 "localhost" 5672 "guest" "guest" "/"
           _ (set_channel (Some (Chan 2)) (set_connection (Some (Conn 2)) connected))).
  reflexivity.
Defined.

(** ** configurate_queue at its edges *)

Lemma configurate_queue_run (self : AMQPAdapter) (ch : Channel) (kw : kwargs) :
  channel self = Some ch ->
  not_ (queue self) = true ->
  configurate_queue kw self =
    (EvQueueDeclare ch (Some (default "" (kw_queue kw)))
       (default false (kw_passive kw)) (default true (kw_durable kw))
       (default false (kw_exclusive kw)) (default false (kw_auto_delete kw))
       (kw_arguments kw)
       :: (if 0 <? default 0 (kw_prefetch_count kw)
           then [EvBasicQos ch (default 0 (kw_prefetch_count kw))] else [])
       ++ [EvLog (LogQueueConfigured (Some (default "" (kw_queue kw)))
                    (Some (default true (kw_basic_ack kw)))
                    (Some (default 0 (kw_prefetch_count kw))))],
     set_prefetch_count (Some (default 0 (kw_prefetch_count kw)))
       (set_basic_ack (Some (default true (kw_basic_ack kw)))
          (set_queue (Some (default "" (kw_queue kw))) self)),
     Returns tt).
Proof.
  intros Hch Hq. destruct self as [q0 h cr pa co ch0 ba pf cw].
  simpl in Hch, Hq. subst ch0.
  unfold configurate_queue, bind, attr, assign, call, ret, self_channel,
    self_prefetch_count, default; simpl. rewrite Hq.
  destruct (kw_queue kw), (kw_basic_ack kw), (kw_prefetch_count kw) as [n|];
    cbn -[Z.ltb]; try (destruct (0 <? n)); reflexivity.
Qed.

Lemma declared_configurate_queue_run (ch : Channel) (kw : kwargs) (self : AMQPAdapter) :
  channel self = Some ch ->
  not_ (queue self) = true ->
  declared (trace (configurate_queue kw self)) = [Some (default "" (kw_queue kw))].
Proof.
  intros Hch Hq. rewrite (configurate_queue_run self ch kw Hch Hq).
  unfold trace; simpl. destruct (0 <? default 0 (kw_prefetch_count kw)); reflexivity.
Qed.

Lemma configurate_queue_stores_then_raises (self : AMQPAdapter) (kw : kwargs) :
  channel self = None ->
  not_ (queue self) = true ->
  configurate_queue kw self =
    ([],
     set_prefetch_count (Some (default 0 (kw_prefetch_count kw)))
       (set_basic_ack (Some (default true (kw_basic_ack kw)))
          (set_queue (Some (default "" (kw_queue kw))) self)),
     Raises (AttributeError "queue_declare")).
Proof.
  intros Hch Hq. destruct self as [q0 h cr pa co ch0 ba pf cw].
  simpl in Hch, Hq. subst ch0.
  unfold configurate_queue, bind, attr, assign, self_channel; simpl.
  rewrite Hq. reflexivity.
Qed.

(** X5: without a channel (before a connection, after [close]),
    [configurate_queue] raises AttributeError and calls nothing, but it has
    already stored the queue name, basic_ack and prefetch_count on the
    adapter, with their defaults where the call left them out, and changed
    nothing else. *)
Theorem configurate_queue_without_channel (self : AMQPAdapter) (kw : kwargs) :
  channel self = None ->
  not_ (queue self) = true ->
  trace (configurate_queue kw self) = [] /\
  outcome (configurate_queue kw self) = Raises (AttributeError "queue_declare") /\
  queue (final (configurate_queue kw self)) =
    Some (match kw_queue kw with Some s => s | None => "" end) /\
  basic_ack (final (configurate_queue kw self)) =
    Some (match kw_basic_ack kw with Some b => b | None => true end) /\
  prefetch_count (final (configurate_queue kw self)) =
    Some (match kw_prefetch_count kw with Some n => n | None => 0 end) /\
  set_prefetch_count (prefetch_count self)
    (set_basic_ack (basic_ack self)
       (set_queue (queue self) (final (configurate_queue kw self)))) = self.
Proof.
  intros Hch Hq. rewrite (configurate_queue_stores_then_raises self kw Hch Hq).
  destruct self as [q0 h cr pa co ch0 ba pf cw]. simpl in Hch. subst ch0.
  repeat split; reflexivity.
Qed.

Lemma configurate_queue_without_channel_witness :
  trace (configurate_queue prefetch5 (cleared connected)) = [] /\
  outcome (configurate_queue prefetch5 (cleared connected)) =
    Raises (AttributeError "queue_declare") /\
  queue (final (configurate_queue prefetch5 (cleared connected))) = Some "jobs" /\
  basic_ack (final (configurate_queue prefetch5 (cleared connected))) = Some true /\
  prefetch_count (final (configurate_queue prefetch5 (cleared connected))) = Some 5 /\
  set_prefetch_count (prefetch_count (cleared connected))
    (set_basic_ack (basic_ack (cleared connected))
       (set_queue (queue (cleared connected))
          (final (configurate_queue prefetch5 (cleared connected))))) =
    cleared connected.
Proof.
  apply (configurate_queue_without_channel (cleared connected) prefetch5);
    reflexivity.
Defined.

(** X6: a [configurate_queue] that failed for want of a channel still
    latches.  If it named a queue, then after a [connect] that returns,
    every further [configurate_queue] is a no-op: the queue the adapter now
    names was declared on no channel. *)
Theorem configurate_queue_failed_call_latches (self : AMQPAdapter) (kw later : kwargs)
  (name : string) (net : network) (k depth : nat)
  (t : list event) (a : AMQPAdapter) :
  channel self = None ->
  not_ (queue self) = true ->
  kw_queue kw = Some name ->
  name <> "" ->
  connect net k depth (final (configurate_queue kw self)) = (t, a, Returns tt) ->
  declared (trace (configurate_queue kw self)) = [] /\
  declared t = [] /\
  queue a = Some name /\
  is_Some (channel a) /\
  configurate_queue later a = ([], a, Returns tt).
Proof.
  intros Hch Hq Hname Hne Hrun.
  rewrite (configurate_queue_stores_then_raises self kw Hch Hq) in Hrun |- *.
  unfold final in Hrun; simpl in Hrun. rewrite Hname in Hrun. simpl in Hrun.
  destruct (connect_returned _ _ _ _ _ _ Hrun)
    as (m & c & ch & t0 & _ & _ & _ & Hret & Ht & Ha).
  assert (Hdecl : declared t = []).
  { destruct Hret as (_ & _ & _ & _ & Hd & _). rewrite Ht.
    unfold declared in *. rewrite flat_map_app, Hd. reflexivity. }
  split; [reflexivity|]. split; [exact Hdecl|].
  assert (Hqa : queue a = Some name) by (rewrite Ha; reflexivity).
  split; [exact Hqa|]. split; [rewrite Ha; simpl; eauto|].
  apply configurate_queue_noop. rewrite Hqa. simpl.
  apply bool_decide_eq_false. exact Hne.
Qed.

Lemma configurate_queue_failed_call_latches_witness :
  let a := set_channel (Some (Chan 2)) (set_connection (Some (Conn 2))
             (set_prefetch_count (Some 5) (set_basic_ack (Some true)
                (set_queue (Some "jobs") (cleared connected))))) in
  configurate_queue no_kwargs a = ([], a, Returns tt).
Proof.
  intros a.
  apply (configurate_queue_failed_call_latches (cleared connected) prefetch5
           no_kwargs "jobs" flaky 0 3
           [EvBlockingConnection localhost;
            EvLog (LogCouldNotConnect "refused");
            EvBlockingConnection localhost;
            EvConnectionChannel (Conn 1);
            EvLog (LogCouldNotConnect "channel closed");
            EvBlockingConnection localhost;
            EvConnectionChannel (Conn 2);
            EvLog LogConnected]
           a);
    [reflexivity|reflexivity|reflexivity|discriminate|reflexivity].
Defined.

(** X7: the default queue name never latches.  On a connected adapter with
    no queue name, any number of [configurate_queue] calls that leave the
    name out, or give the empty name, all return and all declare a queue:
    as many declarations as calls. *)
Theorem configurate_queue_default_name_never_latches (kws : list kwargs) :
  forall (self : AMQPAdapter) (ch : Channel),
  channel self = Some ch ->
  not_ (queue self) = true ->
  Forall (fun kw => default "" (kw_queue kw) = "") kws ->
  outcome (configurate_queue_calls kws self) = Returns tt /\
  declared (trace (configurate_queue_calls kws self)) =
    replicate (length kws) (Some "") /\
  not_ (queue (final (configurate_queue_calls kws self))) = true.
Proof.
  induction kws as [|kw kws IH]; intros self ch Hch Hq Hkws.
  - repeat split. exact Hq.
  - inversion Hkws as [|kw' kws' Hkw Hrest]; subst.
    simpl. unfold bind. rewrite (configurate_queue_run self ch kw Hch Hq).
    rewrite Hkw.
    set (self' := set_prefetch_count _ (set_basic_ack _ (set_queue (Some "") self))).
    assert (Hch' : channel self' = Some ch) by exact Hch.
    destruct (IH self' ch Hch' eq_refl Hrest) as [Hr [Hd Hq']].
    destruct (configurate_queue_calls kws self') as [[t' a'] r'].
    unfold outcome, trace, final in *; simpl in *.
    split; [exact Hr|]. split; [|exact Hq'].
    unfold declared in *. simpl. rewrite flat_map_app, Hd.
    destruct (0 <? default 0 (kw_prefetch_count kw)); reflexivity.
Qed.

Lemma configurate_queue_default_name_never_latches_witness :
  declared (trace (configurate_queue_calls [no_kwargs; no_kwargs; no_kwargs] connected)) =
    [Some ""; Some ""; Some ""].
Proof.
  apply (configurate_queue_default_name_never_latches
           [no_kwargs; no_kwargs; no_kwargs] connected (Chan 1));
    [reflexivity|reflexivity|repeat constructor].
Defined.

(** X8: [close] lifts the first-call-wins guard.  Whatever queue the
    adapter had, after [close] and a [connect] that returns, the next
    [configurate_queue] declares the queue it is given, first of all and on
    the new channel, and stores its name. *)
Theorem close_then_connect_reconfigures (self : AMQPAdapter) (ch : Channel)
  (c : Connection) (net : network) (k depth : nat) (kw : kwargs)
  (t : list event) (a : AMQPAdapter) :
  channel self = Some ch ->
  connection self = Some c ->
  connect net k depth (final (close self)) = (t, a, Returns tt) ->
  exists ch',
    channel a = Some ch' /\
    outcome (configurate_queue kw a) = Returns tt /\
    declared (trace (configurate_queue kw a)) = [Some (default "" (kw_queue kw))] /\
    queue (final (configurate_queue kw a)) = Some (default "" (kw_queue kw)) /\
    exists rest,
      trace (configurate_queue kw a) =
        EvQueueDeclare ch' (Some (default "" (kw_queue kw)))
          (default false (kw_passive kw)) (default true (kw_durable kw))
          (default false (kw_exclusive kw)) (default false (kw_auto_delete kw))
          (kw_arguments kw) :: rest.
Proof.
  intros Hch Hc Hrun.
  assert (Hclose : final (close self) = cleared self).
  { unfold close, bind, self_channel, self_connection, call, assign.
    rewrite Hch, Hc. reflexivity. }
  rewrite Hclose in Hrun.
  destruct (connect_returned _ _ _ _ _ _ Hrun)
    as (m & c' & ch' & t0 & _ & _ & _ & _ & _ & Ha).
  exists ch'.
  assert (Hch' : channel a = Some ch') by (rewrite Ha; reflexivity).
  assert (Hq : not_ (queue a) = true) by (rewrite Ha; reflexivity).
  split; [exact Hch'|].
  rewrite (declared_configurate_queue_run ch' kw a Hch' Hq).
  rewrite (configurate_queue_run a ch' kw Hch' Hq).
  split; [reflexivity|]. split; [reflexivity|]. split; [reflexivity|].
  eexists. reflexivity.
Qed.

Lemma close_then_connect_reconfigures_witness :
  let a := set_channel (Some (Chan 2)) (set_connection (Some (Conn 2))
             (cleared (with_queue "old"))) in
  exists ch',
    channel a = Some ch' /\
    outcome (configurate_queue prefetch5 a) = Returns tt /\
    declared (trace (configurate_queue prefetch5 a)) =
      [Some (default "" (kw_queue prefetch5))] /\
    queue (final (configurate_queue prefetch5 a)) =
      Some (default "" (kw_queue prefetch5)) /\
    exists rest,
      trace (configurate_queue prefetch5 a) =
        EvQueueDeclare ch' (Some (default "" (kw_queue prefetch5)))
          (default false (kw_passive prefetch5)) (default true (kw_durable prefetch5))
          (default false (kw_exclusive prefetch5))
          (default false (kw_auto_delete prefetch5))
          (kw_arguments prefetch5) :: rest.
Proof.
  intros a.
  apply (close_then_connect_reconfigures (with_queue "old") (Chan 1) (Conn 1)
           flaky 0 3 prefetch5
           [EvBlockingConnection localhost;
            EvLog (LogCouldNotConnect "refused");
            EvBlockingConnection localhost;
            EvConnectionChannel (Conn 1);
            EvLog (LogCouldNotConnect "channel closed");
            EvBlockingConnection localhost;
            EvConnectionChannel (Conn 2);
            EvLog LogConnected]
           a); reflexivity.
Defined.

(** ** The consuming loop, for any worker and anything that arrives *)

Lemma final_consume_callback (ch : Channel) (m : Deliver) (p : BasicProperties)
  (b : string) (self : AMQPAdapter) :
  final (consume_callback ch m p b self) = self.
Proof.
  unfold consume_callback, bind, attr, call, returned, raise, consume_acknowledge.
  destruct (_consume_worker self) as [w|]; [|reflexivity].
  destruct (w ch m p b); reflexivity.
Qed.

Lemma final_start_consuming (ch : Channel) (arrivals : list arrival)
  (self : AMQPAdapter) :
  final (start_consuming ch arrivals self) = self.
Proof.
  induction arrivals as [|[m p b|] arrivals IH]; [reflexivity| |reflexivity].
  simpl. unfold bind.
  rewrite (run_eta (consume_callback ch m p b self)), final_consume_callback.
  destruct (outcome (consume_callback ch m p b self)); [|reflexivity].
  rewrite (run_eta (start_consuming ch arrivals self)), IH. reflexivity.
Qed.

Lemma stop_then_close (self : AMQPAdapter) (ch : Channel) :
  channel self = Some ch ->
  (ch' <- self_channel "stop_consuming" ;; call (EvStopConsuming ch') ;; close) self =
    match connection self with
    | Some c =>
        ([EvStopConsuming ch; EvChannelClose ch; EvConnectionClose c],
         cleared self, Returns tt)
    | None =>
        ([EvStopConsuming ch; EvChannelClose ch], self,
         Raises (AttributeError "close"))
    end.
Proof.
  intros Hch. destruct self as [q0 h cr pa co ch0 ba pf cw].
  simpl in Hch. subst ch0. destruct co; reflexivity.
Qed.

Lemma consume_run (self : AMQPAdapter) (w : worker) (arrivals : list arrival)
  (ch : Channel) :
  channel self = Some ch ->
  let self' := set_consume_worker (Some w) self in
  let t := trace (start_consuming ch arrivals self') in
  consume w arrivals self =
    match outcome (start_consuming ch arrivals self') with
    | Returns _ =>
        (EvBasicConsume ch (queue self) :: EvStartConsuming ch :: t, self', Returns tt)
    | Raises KeyboardInterrupt =>
        match connection self with
        | Some c =>
            (EvBasicConsume ch (queue self) :: EvStartConsuming ch :: t
               ++ [EvStopConsuming ch; EvChannelClose ch; EvConnectionClose c],
             cleared self', Returns tt)
        | None =>
            (EvBasicConsume ch (queue self) :: EvStartConsuming ch :: t
               ++ [EvStopConsuming ch; EvChannelClose ch],
             self', Raises (AttributeError "close"))
        end
    | Raises e =>
        (EvBasicConsume ch (queue self) :: EvStartConsuming ch :: t, self', Raises e)
    end.
Proof.
  intros Hch self' t.
  assert (Hch' : channel self' = Some ch) by exact Hch.
  pose proof (final_start_consuming ch arrivals self') as Hfin.
  pose proof (run_eta (start_consuming ch arrivals self')) as Heta.
  rewrite Hfin in Heta. fold t in Heta.
  unfold consume, bind at 1, assign at 1. fold self'.
  unfold bind at 1, self_channel at 1. rewrite Hch'.
  unfold bind at 1, attr at 1. unfold bind at 1, call at 1.
  unfold try_except, bind at 1, self_channel at 1. rewrite Hch'.
  unfold bind at 1, call at 1. rewrite Heta.
  destruct (outcome (start_consuming ch arrivals self')) as [[]|[| | | |]].
  - reflexivity.
  - cbv beta iota. rewrite (stop_then_close self' ch Hch').
    change (connection self') with (connection self).
    destruct (connection self); reflexivity.
  - unfold raise. simpl. rewrite app_nil_r. reflexivity.
  - unfold raise. simpl. rewrite app_nil_r. reflexivity.
  - unfold raise. simpl. rewrite app_nil_r. reflexivity.
  - unfold raise. simpl. rewrite app_nil_r. reflexivity.
Qed.

Lemma acked_app (t1 t2 : list event) : acked (t1 ++ t2) = acked t1 ++ acked t2.
Proof. unfold acked. apply flat_map_app. Qed.

Lemma worker_calls_app (t1 t2 : list event) :
  worker_calls (t1 ++ t2) = worker_calls t1 ++ worker_calls t2.
Proof. unfold worker_calls. apply flat_map_app. Qed.

Lemma start_consuming_worker_raises (self : AMQPAdapter) (w : worker) (ch : Channel)
  (m : Deliver) (p : BasicProperties) (b : string) (e : exn) (later : list arrival) :
  _consume_worker self = Some w ->
  w ch m p b = Raises e ->
  start_consuming ch (Delivery m p b :: later) self =
    ([EvWorker ch m p b], self, Raises e).
Proof.
  intros Hw Hr. simpl. unfold bind.
  rewrite (consume_callback_run self w ch m p b Hw), Hr. reflexivity.
Qed.



(** X10: when the worker raises anything but KeyboardInterrupt on a
    delivery, [consume] ends in that exception: the deliveries before it
    were acknowledged, this one is not, nothing that arrives later is
    consumed, and the channel and the connection are neither stopped nor
    closed: the adapter keeps them, with its queue. *)
Theorem consume_worker_fails (self : AMQPAdapter) (w : worker) (ch : Channel)
  (ds : list delivery) (m : Deliver) (p : BasicProperties) (b : string)
  (e : exn) (later : list arrival) :
  channel self = Some ch ->
  Forall (returns_on w ch) ds ->
  w ch m p b = Raises e ->
  e <> KeyboardInterrupt ->
  consume w (map arrive ds ++ Delivery m p b :: later) self =
    (EvBasicConsume ch (queue self) :: EvStartConsuming ch
       :: flat_map (handled ch) ds ++ [EvWorker ch m p b],
     set_consume_worker (Some w) self,
     Raises e).
Proof.
  intros Hch Hds Hr He.
  pose proof (consume_run self w (map arrive ds ++ Delivery m p b :: later) ch Hch)
    as Hrun. cbv zeta in Hrun. rewrite Hrun.
  rewrite (start_consuming_handled (set_consume_worker (Some w) self) w ch ds
             (Delivery m p b :: later) eq_refl Hds).
  rewrite (start_consuming_worker_raises (set_consume_worker (Some w) self) w ch
             m p b e later eq_refl Hr).
  unfold outcome, trace; simpl. destruct e; [congruence|reflexivity..].
Qed.

Lemma consume_worker_fails_witness :
  consume failing_worker ([] ++ [Delivery tag7 json_props "[1]"; Interrupt])
    (with_queue "jobs") =
    ([EvBasicConsume (Chan 1) (Some "jobs"); EvStartConsuming (Chan 1);
      EvWorker (Chan 1) tag7 json_props "[1]"],
     set_consume_worker (Some failing_worker) (with_queue "jobs"),
     Raises (Error "ValueError")).
Proof.
  apply (consume_worker_fails (with_queue "jobs") failing_worker (Chan 1) []
           tag7 json_props "[1]" (Error "ValueError") [Interrupt]);
    [reflexivity|constructor|reflexivity|discriminate].
Defined.

(** X11: when the interrupt comes while the worker runs (the worker raises
    KeyboardInterrupt), [consume] shuts down as for an interrupt between
    deliveries and returns normally; the delivery the worker was handling
    is not acknowledged. *)
Theorem consume_worker_interrupted (self : AMQPAdapter) (w : worker) (ch : Channel)
  (c : Connection) (ds : list delivery) (m : Deliver) (p : BasicProperties)
  (b : string) (later : list arrival) :
  channel self = Some ch ->
  connection self = Some c ->
  Forall (returns_on w ch) ds ->
  w ch m p b = Raises KeyboardInterrupt ->
  consume w (map arrive ds ++ Delivery m p b :: later) self =
    (EvBasicConsume ch (queue self) :: EvStartConsuming ch
       :: (flat_map (handled ch) ds ++ [EvWorker ch m p b])
       ++ [EvStopConsuming ch; EvChannelClose ch; EvConnectionClose c],
     cleared (set_consume_worker (Some w) self),
     Returns tt) /\
  acked (trace (consume w (map arrive ds ++ Delivery m p b :: later) self)) =
    map (fun d => (ch, tag_of d)) ds.
Proof.
  intros Hch Hc Hds Hr.
  pose proof (consume_run self w (map arrive ds ++ Delivery m p b :: later) ch Hch)
    as Hrun. cbv zeta in Hrun. rewrite Hrun.
  rewrite (start_consuming_handled (set_consume_worker (Some w) self) w ch ds
             (Delivery m p b :: later) eq_refl Hds).
  rewrite (start_consuming_worker_raises (set_consume_worker (Some w) self) w ch
             m p b KeyboardInterrupt later eq_refl Hr).
  unfold outcome, trace; simpl. rewrite Hc. split; [reflexivity|].
  simpl.
  change (acked ([EvBasicConsume ch (queue self); EvStartConsuming ch]
                   ++ (flat_map (handled ch) ds ++ [EvWorker ch m p b])
                   ++ [EvStopConsuming ch; EvChannelClose ch; EvConnectionClose c])
          = map (fun d => (ch, tag_of d)) ds).
  rewrite !acked_app, acked_handled. simpl. rewrite !app_nil_r. reflexivity.
Qed.

Lemma consume_worker_interrupted_witness :
  acked (trace (consume other_worker
                  (map arrive [(tag8, json_props, "[0]")]
                     ++ Delivery tag7 json_props "[1]" :: [])
                  (with_queue "jobs"))) =
    map (fun d => (Chan 1, tag_of d)) [(tag8, json_props, "[0]")].
Proof.
  apply (consume_worker_interrupted (with_queue "jobs") other_worker (Chan 1)
           (Conn 1) [(tag8, json_props, "[0]")] tag7 json_props "[1]" []);
    [reflexivity|reflexivity|repeat constructor|reflexivity].
Defined.

(** X12: when everything that arrives is a delivery the worker handles and
    the loop then ends, [consume] returns normally with every delivery
    acknowledged; it stops and closes nothing, and the adapter stays
    connected with its queue. *)
Theorem consume_drained (self : AMQPAdapter) (w : worker) (ch : Channel)
  (ds : list delivery) :
  channel self = Some ch ->
  Forall (returns_on w ch) ds ->
  consume w (map arrive ds) self =
    (EvBasicConsume ch (queue self) :: EvStartConsuming ch
       :: flat_map (handled ch) ds,
     set_consume_worker (Some w) self,
     Returns tt).
Proof.
  intros Hch Hds.
  pose proof (consume_run self w (map arrive ds) ch Hch) as Hrun.
  cbv zeta in Hrun. rewrite Hrun.
  rewrite <- (app_nil_r (map arrive ds)).
  rewrite (start_consuming_handled (set_consume_worker (Some w) self) w ch ds
             [] eq_refl Hds).
  unfold outcome, trace; simpl. rewrite app_nil_r. reflexivity.
Qed.

Lemma consume_drained_witness :
  consume print_worker (map arrive [a_delivery; (tag8, json_props, "[0]")])
    (with_queue "jobs") =
    (EvBasicConsume (Chan 1) (Some "jobs") :: EvStartConsuming (Chan 1)
       :: flat_map (handled (Chan 1)) [a_delivery; (tag8, json_props, "[0]")],
     set_consume_worker (Some print_worker) (with_queue "jobs"),
     Returns tt).
Proof.
  apply (consume_drained (with_queue "jobs") print_worker (Chan 1)
           [a_delivery; (tag8, json_props, "[0]")]);
    [reflexivity|repeat constructor].
Defined.

Lemma start_consuming_delivery (ch : Channel) (m : Deliver) (p : BasicProperties)
  (b : string) (arrivals : list arrival) (self : AMQPAdapter) :
  trace (start_consuming ch (Delivery m p b :: arrivals) self) =
    match _consume_worker self with
    | None => []
    | Some w =>
        match w ch m p b with
        | Returns _ =>
            EvWorker ch m p b :: EvBasicAck ch (delivery_tag m)
              :: trace (start_consuming ch arrivals self)
        | Raises _ => [EvWorker ch m p b]
        end
    end.
Proof.
  simpl. unfold consume_callback, consume_acknowledge, bind, attr, call,
    returned, raise.
  destruct (_consume_worker self) as [w|]; [|reflexivity].
  destruct (w ch m p b) as [[]|e]; [|reflexivity].
  simpl. destruct (start_consuming ch arrivals self) as [[t s] r]. reflexivity.
Qed.

Lemma start_consuming_served (w : worker) (ch : Channel) (arrivals : list arrival)
  (self : AMQPAdapter) :
  _consume_worker self = Some w ->
  trace (start_consuming ch arrivals self) = served w ch arrivals.
Proof.
  intros Hw. induction arrivals as [|[m p b|] arrivals IH]; [reflexivity| |reflexivity].
  rewrite start_consuming_delivery, Hw. simpl.
  destruct (w ch m p b); [rewrite IH|]; reflexivity.
Qed.

Lemma served_order (w : worker) (ch : Channel) (arrivals : list arrival) :
  acked (served w ch arrivals) `prefix_of` worker_calls (served w ch arrivals) /\
  worker_calls (served w ch arrivals) `prefix_of` delivered ch arrivals /\
  (length (worker_calls (served w ch arrivals))
     <= S (length (acked (served w ch arrivals))))%nat.
Proof.
  induction arrivals as [|[m p b|] arrivals [IHa [IHw IHl]]].
  - simpl. repeat split; [reflexivity|reflexivity|lia].
  - simpl. destruct (w ch m p b) as [[]|e]; simpl.
    + repeat split; [apply prefix_cons; exact IHa
                    |apply prefix_cons; exact IHw|lia].
    + repeat split; [apply prefix_nil|apply prefix_cons, prefix_nil|lia].
  - simpl. repeat split; [reflexivity|apply prefix_nil|lia].
Qed.

(** X13: whatever the worker does and whatever arrives, the calls [consume]
    makes are: basic_consume, start_consuming, then for each delivery in
    the order of arrival the worker call followed by the acknowledgement of
    its tag, up to the first interrupt or the first delivery on which the
    worker raises, whose worker call is then the last; then the shut-down
    calls, if any, which hold no worker call and no acknowledgement.  So
    the acknowledged tags are a prefix of the tags given to the worker,
    those a prefix of the tags delivered, and at most one delivery given to
    the worker stays unacknowledged. *)
Theorem consume_acks_in_order (self : AMQPAdapter) (w : worker)
  (arrivals : list arrival) (ch : Channel) :
  channel self = Some ch ->
  (exists tail,
     trace (consume w arrivals self) =
       [EvBasicConsume ch (queue self); EvStartConsuming ch]
         ++ served w ch arrivals ++ tail /\
     (tail = [] \/
      tail = [EvStopConsuming ch; EvChannelClose ch] \/
      exists c, tail = [EvStopConsuming ch; EvChannelClose ch; EvConnectionClose c])) /\
  acked (trace (consume w arrivals self))
    `prefix_of` worker_calls (trace (consume w arrivals self)) /\
  worker_calls (trace (consume w arrivals self))
    `prefix_of` delivered ch arrivals /\
  (length (worker_calls (trace (consume w arrivals self)))
     <= S (length (acked (trace (consume w arrivals self)))))%nat.
Proof.
  intros Hch.
  pose proof (consume_run self w arrivals ch Hch) as Hrun. cbv zeta in Hrun.
  rewrite (start_consuming_served w ch arrivals
             (set_consume_worker (Some w) self) eq_refl) in Hrun.
  destruct (served_order w ch arrivals) as [Ha [Hw Hl]].
  assert (Hshape : exists tail,
             trace (consume w arrivals self) =
               [EvBasicConsume ch (queue self); EvStartConsuming ch]
                 ++ served w ch arrivals ++ tail /\
             (tail = [] \/
              tail = [EvStopConsuming ch; EvChannelClose ch] \/
              exists c, tail = [EvStopConsuming ch; EvChannelClose ch;
                                EvConnectionClose c])).
  { rewrite Hrun.
    destruct (outcome (start_consuming ch arrivals (set_consume_worker (Some w) self)))
      as [[]|[| | | |]].
    - exists []. rewrite app_nil_r. split; [reflexivity|left; reflexivity].
    - destruct (connection self) as [c|]; eexists; (split; [reflexivity|]); eauto.
    - exists []. rewrite app_nil_r. split; [reflexivity|left; reflexivity].
    - exists []. rewrite app_nil_r. split; [reflexivity|left; reflexivity].
    - exists []. rewrite app_nil_r. split; [reflexivity|left; reflexivity].
    - exists []. rewrite app_nil_r. split; [reflexivity|left; reflexivity]. }
  split; [exact Hshape|].
  destruct Hshape as [tail [-> Htail]].
  assert (Hta : acked tail = [] /\ worker_calls tail = []).
  { destruct Htail as [->|[->|[c ->]]]; split; reflexivity. }
  destruct Hta as [Hta Htw].
  rewrite !acked_app, !worker_calls_app, Hta, Htw. simpl. rewrite !app_nil_r.
  repeat split; assumption.
Qed.

Lemma consume_acks_in_order_witness :
  exists tail,
    trace (consume other_worker
             [Delivery tag8 json_props "[0]"; Delivery tag7 json_props "[1]";
              Delivery tag8 json_props "[2]"]
             (with_queue "jobs")) =
      [EvBasicConsume (Chan 1) (queue (with_queue "jobs")); EvStartConsuming (Chan 1)]
        ++ served other_worker (Chan 1)
             [Delivery tag8 json_props "[0]"; Delivery tag7 json_props "[1]";
              Delivery tag8 json_props "[2]"] ++ tail /\
    (tail = [] \/
     tail = [EvStopConsuming (Chan 1); EvChannelClose (Chan 1)] \/
     exists c, tail = [EvStopConsuming (Chan 1); EvChannelClose (Chan 1);
                       EvConnectionClose c]).
Proof.
  apply (consume_acks_in_order (with_queue "jobs") other_worker
           [Delivery tag8 json_props "[0]"; Delivery tag7 json_props "[1]";
            Delivery tag8 json_props "[2]"] (Chan 1)).
  reflexivity.
Defined.

(** The loop of the run above, call by call. *)
Example served_until_the_worker_raises :
  served other_worker (Chan 1)
    [Delivery tag8 json_props "[0]"; Delivery tag7 json_props "[1]";
     Delivery tag8 json_props "[2]"] =
  [EvWorker (Chan 1) tag8 json_props "[0]"; EvBasicAck (Chan 1) 8;
   EvWorker (Chan 1) tag7 json_props "[1]"].
Proof. reflexivity. Qed.

(** ** send and the message's properties *)

(** X14: of a message's properties [send] uses 'exchange' and
    'delivery_mode' and nothing else: setting any other key to any value
    changes neither what is logged, nor what is published, nor the outcome. *)
Theorem send_ignores_other_properties (self : AMQPAdapter) (message : Message)
  (key : string) (v : pyval) :
  key <> "exchange" ->
  key <> "delivery_mode" ->
  send {| get_content :=
            {| c_properties := <[key := v]> (c_properties (get_content message));
               c_body := c_body (get_content message) |} |} self =
  send message self.
Proof.
  intros Hex Hdm. unfold send, format_message. simpl.
  rewrite !lookup_insert_ne by congruence. reflexivity.
Qed.

Lemma send_ignores_other_properties_witness :
  send {| get_content :=
            {| c_properties := <["priority" := PInt 9]> (c_properties (get_content routed_message));
               c_body := c_body (get_content routed_message) |} |} (with_queue "jobs") =
  send routed_message (with_queue "jobs").
Proof.
  apply (send_ignores_other_properties (with_queue "jobs") routed_message
           "priority" (PInt 9)); discriminate.
Defined.

(** ** What every use of the adapter preserves *)

Lemma final_send (message : Message) (self : AMQPAdapter) :
  final (send message self) = self.
Proof.
  unfold send, format_message, bind, attr, call, ret, self_channel.
  destruct (channel self); reflexivity.
Qed.

Lemma final_close (self : AMQPAdapter) :
  final (close self) = self \/
  (is_Some (channel self) /\ is_Some (connection self) /\
   final (close self) = cleared self).
Proof.
  unfold close, bind, self_channel, self_connection, call, assign.
  destruct (channel self) as [ch|]; [|left; reflexivity].
  destruct (connection self) as [c|]; [|left; reflexivity].
  right. repeat split; eauto.
Qed.

Lemma final_configurate_queue (kw : kwargs) (self : AMQPAdapter) :
  final (configurate_queue kw self) = self \/
  exists q ack pc,
    final (configurate_queue kw self) =
      set_prefetch_count (Some pc) (set_basic_ack (Some ack) (set_queue (Some q) self)).
Proof.
  destruct (not_ (queue self)) eqn:Hq.
  - right. destruct (channel self) as [ch|] eqn:Hch.
    + rewrite (configurate_queue_run self ch kw Hch Hq). eauto.
    + destruct self as [q0 h cr pa co ch0 ba pf cw]. simpl in Hch, Hq. subst ch0.
      unfold configurate_queue, bind, attr, assign, self_channel; simpl.
      rewrite Hq. simpl. eauto.
  - left. rewrite (configurate_queue_noop self kw Hq). reflexivity.
Qed.

Lemma final_consume (w : worker) (arrivals : list arrival) (self : AMQPAdapter) :
  final (consume w arrivals self) = set_consume_worker (Some w) self \/
  (is_Some (channel self) /\ is_Some (connection self) /\
   final (consume w arrivals self) = cleared (set_consume_worker (Some w) self)).
Proof.
  destruct (channel self) as [ch|] eqn:Hch.
  - pose proof (consume_run self w arrivals ch Hch) as Hrun. cbv zeta in Hrun.
    rewrite Hrun.
    destruct (outcome (start_consuming ch arrivals (set_consume_worker (Some w) self)))
      as [[]|[| | | |]]; try (left; reflexivity).
    destruct (connection self) as [c|]; [|left; reflexivity].
    right. repeat split; eauto.
  - left. destruct self as [q0 h cr pa co ch0 ba pf cw]. simpl in Hch. subst ch0.
    reflexivity.
Qed.

Lemma step_cases (a a' : AMQPAdapter) :
  step a a' ->
  a' = a \/
  (exists q ack pc,
     a' = set_prefetch_count (Some pc) (set_basic_ack (Some ack) (set_queue (Some q) a))) \/
  (exists w, a' = set_consume_worker (Some w) a) \/
  (exists w, is_Some (channel a) /\ is_Some (connection a) /\
             a' = cleared (set_consume_worker (Some w) a)) \/
  (is_Some (channel a) /\ is_Some (connection a) /\ a' = cleared a) \/
  (exists c, a' = set_connection (Some c) a) \/
  (exists c ch, a' = set_channel (Some ch) (set_connection (Some c) a)).
Proof.
  intros [self [kw|message|w arrivals|ch m p b|]|self net k depth]; simpl.
  - destruct (final_configurate_queue kw self) as [->|H]; [left; reflexivity|].
    right; left. exact H.
  - left. apply final_send.
  - destruct (final_consume w arrivals self) as [->|H].
    + right; right; left. eauto.
    + right; right; right; left. eauto.
  - left. apply final_consume_callback.
  - destruct (final_close self) as [->|H]; [left; reflexivity|].
    right; right; right; right; left. exact H.
  - destruct (connect_final_shape net k depth self) as [->|[H|H]].
    + left. reflexivity.
    + right; right; right; right; right; left. exact H.
    + right; right; right; right; right; right. exact H.
Qed.

Lemma step_keeps_parameters (a a' : AMQPAdapter) :
  step a a' ->
  _host a' = _host a /\ _credentials a' = _credentials a /\
  _parameters a' = _parameters a.
Proof.
  intros Hstep.
  destruct (step_cases a a' Hstep)
    as [->|[[q [ack [pc ->]]]|[[w ->]|[[w [_ [_ ->]]]|[[_ [_ ->]]
       |[[c ->]|[c [ch ->]]]]]]]];
    repeat split.
Qed.

Lemma steps_keep_parameters (a a' : AMQPAdapter) :
  rtc step a a' ->
  _host a' = _host a /\ _credentials a' = _credentials a /\
  _parameters a' = _parameters a.
Proof.
  induction 1 as [a|a b c Hstep _ IH]; [repeat split|].
  destruct (step_keeps_parameters a b Hstep) as [Hh [Hc Hp]].
  destruct IH as [IHh [IHc IHp]]. rewrite IHh, IHc, IHp. repeat split; assumption.
Qed.


(** X15: nothing a user can do with the adapter changes what it connects
    with.  From the constructor on, through any sequence of method calls
    and reconnections, returning or raising, the adapter keeps the host,
    credentials and connection parameters it was built with, and every
    attempt of any later [connect] is made with those parameters. *)
Theorem parameters_never_change (net : network) (depth : nat) (host : string)
  (port : Z) (user password vhost : string)
  (t0 : list event) (a0 : AMQPAdapter)
  (a : AMQPAdapter) (net' : network) (k depth' : nat)
  (t : list event) (a' : AMQPAdapter) (r : result unit) :
  __init__ net depth host port user password vhost = (t0, a0, Returns tt) ->
  rtc step a0 a ->
  connect net' k depth' a = (t, a', r) ->
  let creds := {| username := user; password := password |} in
  let params := {| host := host; port := port; virtual_host := vhost;
                   credentials := creds |} in
  _host a = host /\
  _credentials a = creds /\
  _parameters a = params /\
  Forall (fun p => p = params) (attempted t).
Proof.
  intros Hinit Hsteps Hrun creds params. unfold __init__ in Hinit.
  destruct (connect_returned _ _ _ _ _ _ Hinit)
    as (m0 & c0 & ch0 & t00 & _ & _ & _ & _ & _ & Ha0).
  destruct (steps_keep_parameters a0 a Hsteps) as [Hh [Hc Hp]].
  rewrite Ha0 in Hh, Hc, Hp. simpl in Hh, Hc, Hp.
  pose proof (connect_attempts_parameters net' k depth' a) as Hatt.
  rewrite Hrun, Hp in Hatt.
  split; [exact Hh|]. split; [exact Hc|]. split; [exact Hp|]. exact Hatt.
Qed.



(** The adapter the run above ends with: a connection and no channel. *)
Example reconnect_interrupted :
  let a := final (connect interrupted 0 5
             (final (perform DoClose
                (final (perform (DoConfigurateQueue prefetch5)
                   (set_channel (Some (Chan 2))
                      (set_connection (Some (Conn 2)) connected))))))) in
  connection a = Some (Conn 1) /\ channel a = None.
Proof. split; reflexivity. Qed.

Lemma parameters_never_change_witness :
  let a := final (perform DoClose
             (set_channel (Some (Chan 2)) (set_connection (Some (Conn 2)) connected))) in
  _host a = "localhost" /\
  _credentials a = guest /\
  _parameters a = localhost /\
  Forall (fun p => p = localhost)
    (attempted
       [EvBlockingConnection localhost;
        EvLog (LogCouldNotConnect "refused");
        EvBlockingConnection localhost;
        EvConnectionChannel (Conn 1)]).
Proof.
  intros a.
  eapply (parameters_never_change flaky 3 "localhost" 5672 "guest" "guest" "/"
           _ (set_channel (Some (Chan 2)) (set_connection (Some (Conn 2)) connected))
           a interrupted 0 5 _
           (set_connection (Some (Conn 1)) a)
           (Raises KeyboardInterrupt)).
  - reflexivity.
  - apply rtc_once. apply (step_perform _ DoClose).
  - reflexivity.
Defined.
